(** * WorkTimer (WITA): the countdown, the day-of-week policy and the
      configuration boundary

    A shallow embedding of the TypeScript sources

    - [timer.tsx] (the hook [useCountdown], [formatDiff], [progressToTarget],
      the cards and the component [TimerWITA]), in the version that has the
      Saturday and Sunday rules, and
    - the application wrapper ([parseTimeToCfg], [isValidTimeStr], the modal
      and [WorkTimerApp]).

    The repository also holds an earlier version of the timer without the
    day-of-week rules; its [nowInTZ] reads the same clock and its
    [targetForDate], [formatDiff], [progressToTarget] and [useCountdown] are
    the same text, so the definitions below stand for both.

    Conventions of the model.

    - A [Date] is the integer number of milliseconds of its {e local} time
      value (ECMAScript [LocalTime(t)]).  [nowInTZ] builds its [Date] from an
      ISO text without zone designator, so the local fields of that [Date]
      are the WITA wall clock, and every later operation of the sources
      ([setHours], [getDay], [toDateString], differences of [getTime()])
      works on those local fields.  The browser's zone offset is taken to be
      constant over the day that is looked at, so that a difference of
      [getTime()] values is the difference of the local time values.
    - The clock always yields a valid date: the text that the platform
      formats for [nowInTZ] is taken to parse.
    - Integer-valued JavaScript numbers are elements of [Z] (they stay far
      below 2^52, where IEEE doubles are exact, but for what [parseInt]
      reads from a long text, see [JS.parseInt10]); the one fractional
      number, the progress percentage, is an exact rational with the
      non-finite values of a double added ([JS.number]).
    - A JavaScript string is the Rocq string of its UTF-8 bytes (the
      emoji of the user interface, a no-break space in a stored text).
    - Reading the system clock is an effect: computations that read it live
      in the monad [M], whose state is the index of the next clock sample. *)

From Stdlib Require Import ZArith QArith Qminmax Bool List String Ascii.
From Stdlib Require Import DecimalString Lia.
Import ListNotations.
Local Open Scope string_scope.
Local Open Scope Z_scope.

(** ** Platform primitives *)

Module JS.

(** *** Text *)

(** [String(n)] for an integer [n]: plain decimal digits, a leading minus
    sign for negative numbers. *)
Definition String_of (n : Z) : string :=
  NilZero.string_of_int (Z.to_int n).

(** [count] characters of [pad] repeated; [cur] is what is left of the
    current copy. *)
Fixpoint fill (count : nat) (pad cur : string) : string :=
  match count with
  | O => ""
  | S count' =>
      match cur with
      | String c rest => String c (fill count' pad rest)
      | EmptyString =>
          match pad with
          | String c rest => String c (fill count' pad rest)
          | EmptyString => ""
          end
      end
  end.

(** [s.padStart(targetLength, pad)]. *)
Definition padStart (s : string) (targetLength : nat) (pad : string) : string :=
  if (targetLength <=? String.length s)%nat then s
  else fill (targetLength - String.length s) pad pad ++ s.

Definition isDigit (c : ascii) : bool :=
  let n := nat_of_ascii c in ((48 <=? n) && (n <=? 57))%nat.

Definition digitValue (c : ascii) : Z := Z.of_nat (nat_of_ascii c) - 48.

(** The characters of [StrWhiteSpaceChar] that fit in one byte: TAB, LF, VT,
    FF, CR and SP. *)
Definition isWhiteSpace (c : ascii) : bool :=
  let n := nat_of_ascii c in
  (((9 <=? n) && (n <=? 13)) || (n =? 32))%nat.

(** Those of two bytes: the no-break space U+00A0. *)
Definition isWhiteSpace2 (c1 c2 : ascii) : bool :=
  ((nat_of_ascii c1 =? 194) && (nat_of_ascii c2 =? 160))%nat.

(** Those of three bytes: U+1680, U+2000 to U+200A, the line and paragraph
    separators U+2028 and U+2029, U+202F, U+205F, U+3000 and the byte order
    mark U+FEFF. *)
Definition isWhiteSpace3 (c1 c2 c3 : ascii) : bool :=
  let a := nat_of_ascii c1 in
  let b := nat_of_ascii c2 in
  let c := nat_of_ascii c3 in
  (((a =? 225) && (b =? 154) && (c =? 128)) ||
   ((a =? 226) && (b =? 128) &&
    (((128 <=? c) && (c <=? 138)) || (c =? 168) || (c =? 169) || (c =? 175))) ||
   ((a =? 226) && (b =? 129) && (c =? 159)) ||
   ((a =? 227) && (b =? 128) && (c =? 128)) ||
   ((a =? 239) && (b =? 187) && (c =? 191)))%nat.

(** The text without the white space and line terminators at its start. *)
Fixpoint trimStart (s : string) : string :=
  match s with
  | String c1 rest1 =>
      if isWhiteSpace c1 then trimStart rest1
      else
        match rest1 with
        | String c2 rest2 =>
            if isWhiteSpace2 c1 c2 then trimStart rest2
            else
              match rest2 with
              | String c3 rest3 =>
                  if isWhiteSpace3 c1 c2 c3 then trimStart rest3 else s
              | EmptyString => s
              end
        | EmptyString => s
        end
  | EmptyString => s
  end.

(** The value of the longest prefix of decimal digits, read after the
    digits [acc] seen so far; [None] when there is no digit at all. *)
Fixpoint digitsPrefix (s : string) (acc : option Z) : option Z :=
  match s with
  | String c rest =>
      if isDigit c
      then digitsPrefix rest
             (Some (10 * match acc with Some a => a | None => 0 end
                    + digitValue c))
      else acc
  | EmptyString => acc
  end.

(** The integers from which rounding to the nearest double gives an
    infinity: those of magnitude 2^1024 - 2^970 or more. *)
Definition overflowBound : Z := Z.shiftl 1 1024 - Z.shiftl 1 970.

(** The number of an integer value, as far as [Number.isFinite] tells:
    [None] when the double is an infinity. *)
Definition finiteOnly (v : Z) : option Z :=
  if Z.abs v <? overflowBound then Some v else None.

(** [parseInt(s, 10)]; [None] is a result that [Number.isFinite] rejects:
    [NaN] when no digit follows the white space and the sign, an infinity
    when the digit run is beyond the range of a double.  With the radix
    given as 10 no [0x] prefix is stripped.  A finite result is given as the
    exact integer; the double is that integer rounded, which differs beyond
    2^53 only, where the one use of the result, a cut to 0..23 or 0..59,
    gives the same. *)
Definition parseInt10 (s : string) : option Z :=
  let digits :=
    match trimStart s with
    | String "-" rest => option_map Z.opp (digitsPrefix rest None)
    | String "+" rest => digitsPrefix rest None
    | t => digitsPrefix t None
    end in
  match digits with
  | Some v => finiteOnly v
  | None => None
  end.

(** [s.split(sep)] for a one-character separator; [cur] is the piece
    being read. *)
Fixpoint splitAux (sep : ascii) (s : string) (cur : string) : list string :=
  match s with
  | String c rest =>
      if Ascii.eqb c sep
      then cur :: splitAux sep rest ""
      else splitAux sep rest (cur ++ String c "")
  | EmptyString => [cur]
  end.

Definition split (s : string) (sep : ascii) : list string :=
  splitAux sep s "".

Fixpoint join (sep : string) (l : list string) : string :=
  match l with
  | [] => ""
  | [x] => x
  | x :: rest => x ++ sep ++ join sep rest
  end.

(** *** Numbers *)

(** A double, as far as the progress percentage needs it: an exact
    rational, or one of the three values that are not finite. *)
Inductive number : Type :=
| Fin (q : Q)
| PosInf
| NegInf
| NaN.

(** [a / b] for integer-valued [a] and [b]. *)
Definition div (a b : Z) : number :=
  if b =? 0
  then (if a =? 0 then NaN else if 0 <? a then PosInf else NegInf)
  else Fin (inject_Z a / inject_Z b)%Q.

Definition Math_max (a b : number) : number :=
  match a, b with
  | NaN, _ | _, NaN => NaN
  | PosInf, _ | _, PosInf => PosInf
  | NegInf, x | x, NegInf => x
  | Fin p, Fin q => Fin (Qmax p q)
  end.

Definition Math_min (a b : number) : number :=
  match a, b with
  | NaN, _ | _, NaN => NaN
  | NegInf, _ | _, NegInf => NegInf
  | PosInf, x | x, PosInf => x
  | Fin p, Fin q => Fin (Qmin p q)
  end.

Definition isFinite (a : number) : bool :=
  match a with Fin _ => true | _ => false end.

(** [x || y] on integer-valued numbers: [0] is the falsy one. *)
Definition orElse (x y : Z) : Z := if x =? 0 then y else x.

(** *** Dates *)

Definition msPerSecond : Z := 1000.
Definition msPerMinute : Z := 60000.
Definition msPerHour : Z := 3600000.
Definition msPerDay : Z := 86400000.

Definition Day (t : Z) : Z := t / msPerDay.
Definition TimeWithinDay (t : Z) : Z := t mod msPerDay.

(** [MakeTime] and [MakeDate] of ECMAScript. *)
Definition MakeTime (h m s ms : Z) : Z :=
  h * msPerHour + m * msPerMinute + s * msPerSecond + ms.
Definition MakeDate (day time : Z) : Z := day * msPerDay + time.

(** [d.setHours(h, m, s, ms)]: the new time value. *)
Definition setHours (d h m s ms : Z) : Z :=
  MakeDate (Day d) (MakeTime h m s ms).

(** [d.getDay()]: 0 is Sunday, 6 is Saturday; day 0 of the epoch was a
    Thursday. *)
Definition getDay (d : Z) : Z := (Day d + 4) mod 7.

(** [d.toDateString()] names the local calendar date of [d] and nothing
    else; two such texts are equal exactly when the day numbers are, so the
    day number stands for the text. *)
Definition toDateString (d : Z) : Z := Day d.

(** [d.setFullYear(temp.getFullYear(), temp.getMonth(), temp.getDate())]:
    the calendar date of [temp] with the time of day of [d]
    ([MakeDay] of the three date fields of [temp] is [Day temp]). *)
Definition setFullYear_of (d temp : Z) : Z :=
  MakeDate (Day temp) (TimeWithinDay d).

End JS.

(** ** The clock monad *)

(** The system clock as the sequence of its samples: [c k] is what the
    [k]-th call of [nowInTZ] returns, as WITA wall-clock milliseconds. *)
Definition Clock : Type := nat -> Z.

Definition M (A : Type) : Type := Clock -> nat -> A * nat.

Definition ret {A} (a : A) : M A := fun _ k => (a, k).

Definition bind {A B} (m : M A) (f : A -> M B) : M B :=
  fun c k => let (a, k') := m c k in f a c k'.

Notation "x <- m ;; f" := (bind m (fun x => f))
  (at level 61, m at next level, right associativity).

(** The value of a computation that starts at the first sample. *)
Definition run {A} (m : M A) (c : Clock) : A := fst (m c O).

(** A clock that shows the same instant at every sample: what the sources
    see while the wall clock stays within one second. *)
Definition frozen (now : Z) : Clock := fun _ => now.

(** ** timer.tsx *)

Module Timer.
Import JS.

Record TimeCfg : Type := mkTimeCfg
  { hours : Z; minutes : Z; label : string }.

Record CountdownState : Type := mkCountdownState
  { nowWita : Z;
    targetToday : Z;
    diffText : string;
    status : string;
    progress : Q;
    isCompleted : bool }.

Definition DEFAULT_REST : TimeCfg := mkTimeCfg 11 30 "Waktunya istirahat".
Definition DEFAULT_HOME : TimeCfg := mkTimeCfg 16 0 "Waktunya pulang".

(** [nowInTZ()]: the next sample of the clock. *)
Definition nowInTZ : M Z := fun c k => (c k, S k).

Definition targetForDate (hours minutes baseDate : Z) : Z :=
  let d := baseDate in
  setHours d hours minutes 0 0.

Record Diff : Type := mkDiff { text : string; days : Z }.

Definition formatDiff (ms : Z) : Diff :=
  let total := Z.max 0 (ms / 1000) in
  let days := total / 86400 in
  let total := total mod 86400 in
  let h := total / 3600 in
  let total := total mod 3600 in
  let m := total / 60 in
  let s := total mod 60 in
  {| text := padStart (String_of h) 2 "0" ++ ":" ++
             padStart (String_of m) 2 "0" ++ ":" ++
             padStart (String_of s) 2 "0";
     days := days |}.

(** The first lines of [progressToTarget], the start of the progress bar:
    [startHour]:00 on the date of [witaNow], moved to the date of [target]
    when the two dates differ. *)
Definition dayStartOf (witaNow target startHour : Z) : Z :=
  let dayStart := setHours witaNow startHour 0 0 0 in
  if negb (toDateString target =? toDateString witaNow)
  then setHours (setFullYear_of dayStart target) startHour 0 0 0
  else dayStart.

(** The lines of [progressToTarget] that compute [span], [done] and [pct]:
    the percentage before the finiteness test. *)
Definition pctOf (witaNow target dayStart : Z) : number :=
  let span := target - dayStart in
  let done := Z.max 0 (Z.min (target - witaNow) span) in
  Math_max (Fin 0)
    (Math_min (Fin 100) (div (100 * (span - done)) (orElse span 1))).

(** [progressToTarget(target, startHour)]: it reads the clock itself; the
    result is [Number.isFinite(pct) ? pct : 0]. *)
Definition progressToTarget (target : Z) (startHour : Z) : M Q :=
  witaNow <- nowInTZ ;;
  let dayStart := dayStartOf witaNow target startHour in
  let pct := pctOf witaNow target dayStart in
  ret (match pct with Fin q => q | _ => 0%Q end).

Section Hook.

(** [d.toLocaleString("id-ID", ...)] with the options of the status
    line: the text is the platform's, the sources only append it. *)
Variable toLocaleString : Z -> string.

(** The state that the initialiser of [useState] builds. *)
Definition initState (cfg : TimeCfg) : M CountdownState :=
  now <- nowInTZ ;;
  let today := targetForDate (hours cfg) (minutes cfg) now in
  let isCompleted := now >=? today in
  let text := text (formatDiff (Z.max 0 (today - now))) in
  progress <- (if isCompleted then ret 100%Q
               else progressToTarget today 8) ;;
  ret {| nowWita := now;
         targetToday := today;
         diffText := if isCompleted then "00:00:00" else text;
         status := if isCompleted
                   then label cfg ++ " selesai 🎉"
                   else "Target hari ini, " ++ toLocaleString today;
         progress := progress;
         isCompleted := isCompleted |}.

(** [setState(next)] replaces the snapshot that the hook stores. *)
Definition setState (next stored : CountdownState) : CountdownState :=
  next.

(** One run of [tick]: from the stored snapshot to the new one. *)
Definition tick (cfg : TimeCfg) (stored : CountdownState)
  : M CountdownState :=
  now <- nowInTZ ;;
  let today := targetForDate (hours cfg) (minutes cfg) now in
  let isCompleted := now >=? today in
  if isCompleted
  then ret (setState
              {| nowWita := now;
                 targetToday := today;
                 diffText := "00:00:00";
                 status := label cfg ++
                           " selesai 🎉 · hitung ulang setelah 00:00 WITA";
                 progress := 100%Q;
                 isCompleted := isCompleted |} stored)
  else
    let diff := today - now in
    let diffText := text (formatDiff diff) in
    let status := "Target hari ini, " ++ toLocaleString today in
    progress <- progressToTarget today 8 ;;
    ret (setState
           {| nowWita := now;
              targetToday := today;
              diffText := diffText;
              status := status;
              progress := progress;
              isCompleted := isCompleted |} stored).

(** The hook once its effect has started: the initialiser fills the
    store, the effect runs [tick] at once (and then every second, each
    run being one more [tick] on the store). *)
Definition useCountdown (cfg : TimeCfg) : M CountdownState :=
  stored <- initState cfg ;;
  tick cfg stored.

(** *** The cards *)

Inductive Accent : Type := amber | emerald.

Inductive BarStyle : Type := GreenPulse | AmberBar | EmeraldBar.

(** What a card shows. *)
Record CardView : Type := mkCardView
  { heading : string;
    badge : string;
    countdownText : string;
    statusLine : string;
    barWidth : Q;
    barStyle : BarStyle;
    greenText : bool;
    confetti : bool }.

Definition Card (title badge : string) (data : CountdownState)
  (accent : Accent) : CardView :=
  let barColor :=
    match accent with amber => AmberBar | emerald => EmeraldBar end in
  {| heading := if isCompleted data
                then title ++ " — Selesai 🎉" else title;
     badge := badge;
     countdownText := diffText data;
     statusLine := status data;
     barWidth := if isCompleted data then 100%Q else progress data;
     barStyle := if isCompleted data then GreenPulse else barColor;
     greenText := isCompleted data;
     confetti := isCompleted data |}.

Definition HolidayCard : CardView :=
  {| heading := "Hari Minggu — Libur 🎈";
     badge := "WITA";
     countdownText := "00:00:00";
     statusLine :=
       "Selamat beristirahat! Countdown kerja akan kembali besok (Senin).";
     barWidth := 100%Q;
     barStyle := GreenPulse;
     greenText := true;
     confetti := false |}.

Definition formatBadgeTime (hours minutes : Z) : string :=
  padStart (String_of hours) 2 "0" ++ ":" ++
  padStart (String_of minutes) 2 "0" ++ " WITA".

(** *** The component *)

(** [d.toLocaleString("id-ID", ...)] with the options of the header. *)
Variable toLocaleString_header : Z -> string.

(** The hooks of the component and what it renders. *)
Record Rendered : Type := mkRendered
  { istirahat : CountdownState;
    pulang : CountdownState;
    effectiveHome : TimeCfg;
    sundayBadge : bool;
    headerClock : string;
    cards : list CardView;
    footer : string }.

(** The component with both hooks settled on the configuration that the
    render passes to them.  The second hook is called on every day of the
    week, Sunday included; on a Sunday its snapshot is not rendered. *)
Definition TimerWITA (restAt homeAt : TimeCfg) : M Rendered :=
  istirahat <- useCountdown restAt ;;
  let day := getDay (nowWita istirahat) in
  let isSunday := day =? 0 in
  let isSaturday := day =? 6 in
  let effectiveHome :=
    if isSaturday
    then {| hours := 14; minutes := 0;
            label := label homeAt ++ " (Sabtu)" |}
    else homeAt in
  pulang <- useCountdown effectiveHome ;;
  let restBadge := formatBadgeTime (hours restAt) (minutes restAt) in
  let homeBadge :=
    formatBadgeTime (hours effectiveHome) (minutes effectiveHome) in
  ret {| istirahat := istirahat;
         pulang := pulang;
         effectiveHome := effectiveHome;
         sundayBadge := isSunday;
         headerClock := toLocaleString_header (nowWita istirahat);
         cards :=
           if isSunday
           then [HolidayCard; HolidayCard]
           else [Card "Menuju Istirahat" restBadge istirahat amber;
                 Card "Menuju Pulang" homeBadge pulang emerald];
         footer :=
           if isSunday
           then "Hari Minggu dianggap libur. Countdown kerja akan aktif kembali saat hari berganti (00:00 WITA)."
           else "Setelah target lewat, status tetap Selesai sampai hari berganti (00:00 WITA)." |}.

(** *** The earlier component

    The earlier version of [timer.tsx] has no day-of-week rule: both hooks
    get the configured times of day, and the badges are fixed texts. *)
Record RenderedV1 : Type := mkRenderedV1
  { istirahat_v1 : CountdownState;
    pulang_v1 : CountdownState;
    headerClock_v1 : string;
    cards_v1 : list CardView;
    footer_v1 : string }.

Definition TimerWITA_v1 (restAt homeAt : TimeCfg) : M RenderedV1 :=
  istirahat <- useCountdown restAt ;;
  pulang <- useCountdown homeAt ;;
  ret {| istirahat_v1 := istirahat;
         pulang_v1 := pulang;
         headerClock_v1 := toLocaleString_header (nowWita istirahat);
         cards_v1 :=
           [Card "Menuju Istirahat" "11:30 WITA" istirahat amber;
            Card "Menuju Pulang" "16:00 WITA" pulang emerald];
         footer_v1 :=
           "Setelah target lewat, status tetap Selesai sampai hari berganti (00:00 WITA)." |}.

(** *** The effect of the hook and its interval *)

(** The part of [window] that the hook touches: the intervals that
    [setInterval] has handed out and that are not cleared, each with the
    configuration that the [tick] closure of its effect has captured, and the
    handle that the next call returns. *)
Record Window : Type := mkWindow
  { nextHandle : nat; intervals : list (nat * TimeCfg) }.

(** [window.setInterval(tick, 1000)] for the [tick] of an effect over
    [cfg]. *)
Definition setInterval (cfg : TimeCfg) (w : Window) : nat * Window :=
  (nextHandle w,
   {| nextHandle := S (nextHandle w);
      intervals := (nextHandle w, cfg) :: intervals w |}).

Definition clearInterval (id : nat) (w : Window) : Window :=
  {| nextHandle := nextHandle w;
     intervals := filter (fun e => negb (fst e =? id)%nat) (intervals w) |}.

(** The dependencies [[hours, minutes, label]] of two renders are the
    same. *)
Definition sameDeps (a b : TimeCfg) : bool :=
  (hours a =? hours b) && (minutes a =? minutes b) &&
  String.eqb (label a) (label b).

(** One instance of the hook: the stored snapshot, [timerRef.current]
    ([None] is [null]) and, as React keeps them, the dependencies of the
    effect whose cleanup is still to run ([None] before the first effect and
    after the unmount). *)
Record HookInstance : Type := mkHookInstance
  { state : CountdownState;
    timerRef : option nat;
    liveDeps : option TimeCfg }.

(** The body of the effect: [tick()] at once, then the interval. *)
Definition effect (cfg : TimeCfg) (h : HookInstance) (w : Window)
  : M (HookInstance * Window) :=
  st <- tick cfg (state h) ;;
  let (id, w') := setInterval cfg w in
  ret ({| state := st; timerRef := Some id; liveDeps := Some cfg |}, w').

(** The function that the effect returns. *)
Definition cleanup (h : HookInstance) (w : Window) : Window :=
  match timerRef h with
  | Some id => clearInterval id w
  | None => w
  end.

(** What happens to the hook: a render with the configuration [cfg] (the
    effect runs again, after the cleanup of the last one, when the
    dependencies have changed), the interval [id] firing, the unmount. *)
Inductive HookEvent : Type :=
| Render (cfg : TimeCfg)
| Fire (id : nat)
| Unmount.

Definition hookStep (e : HookEvent) (h : HookInstance) (w : Window)
  : M (HookInstance * Window) :=
  match e with
  | Render cfg =>
      match liveDeps h with
      | Some d =>
          if sameDeps d cfg then ret (h, w)
          else effect cfg h (cleanup h w)
      | None => effect cfg h w
      end
  | Fire id =>
      match find (fun e => (fst e =? id)%nat) (intervals w) with
      | Some (_, cfg) =>
          st <- tick cfg (state h) ;;
          ret ({| state := st; timerRef := timerRef h;
                  liveDeps := liveDeps h |}, w)
      | None => ret (h, w)
      end
  | Unmount =>
      match liveDeps h with
      | Some _ =>
          ret ({| state := state h; timerRef := timerRef h;
                  liveDeps := None |}, cleanup h w)
      | None => ret (h, w)
      end
  end.

Fixpoint hookRun (es : list HookEvent) (h : HookInstance) (w : Window)
  : M (HookInstance * Window) :=
  match es with
  | [] => ret (h, w)
  | e :: rest =>
      hw <- hookStep e h w ;;
      hookRun rest (fst hw) (snd hw)
  end.

(** The hook of a component that mounts: the initialiser fills the store,
    no effect has run yet. *)
Definition hookMount (cfg : TimeCfg) : M HookInstance :=
  st <- initState cfg ;;
  ret {| state := st; timerRef := None; liveDeps := None |}.

End Hook.

End Timer.

(** ** The application wrapper *)

Module App.
Import JS.
Import Timer.

(** *** Values that come out of [JSON.parse]

    [JSON.parse(raw) as UserCfg] is a cast that nothing checks at run time,
    so what the wrapper reads from the storage is any JSON value, and a
    missing property reads as [undefined].  Numbers are the integers (a
    literal with a fraction or an exponent renders with digits, a sign, a
    dot and the letter e, like them without a colon). *)
#[local] Set Warnings "-register-all".
Inductive JSValue : Type :=
| JUndefined
| JNull
| JBool (b : bool)
| JNum (n : Z)
| JStr (s : string)
| JArr (items : list JSValue)
| JObj (fields : list (string * JSValue)).

(** The last binding of [key]: the one that [JSON.parse] keeps when a
    name is repeated. *)
Fixpoint lookup (key : string) (fields : list (string * JSValue))
  : option JSValue :=
  match fields with
  | [] => None
  | (k, v) :: rest =>
      match lookup key rest with
      | Some v' => Some v'
      | None => if String.eqb k key then Some v else None
      end
  end.

(** All the texts, or [None] when one of them is missing. *)
Fixpoint allSome (l : list (option string)) : option (list string) :=
  match l with
  | [] => Some []
  | Some x :: rest => option_map (cons x) (allSome rest)
  | None :: _ => None
  end.

(** The abstract operation [ToString], which [RegExp.prototype.test]
    applies to its argument; [None] is the [TypeError] that it throws.  An
    array is its items joined by commas, with [null] and [undefined] items
    left empty, and throws when an item does.  An object of [JSON.parse] is
    [[object Object]] through the inherited [toString]; when it has a
    property [toString] of its own, which is never a function, neither that
    nor [valueOf] gives a primitive and the conversion throws. *)
Fixpoint ToString (v : JSValue) : option string :=
  match v with
  | JUndefined => Some "undefined"
  | JNull => Some "null"
  | JBool true => Some "true"
  | JBool false => Some "false"
  | JNum n => Some (String_of n)
  | JStr s => Some s
  | JArr items =>
      option_map (join ",")
        (allSome
           (map (fun item =>
                   match item with
                   | JUndefined | JNull => Some ""
                   | _ => ToString item
                   end) items))
  | JObj fields =>
      match lookup "toString" fields with
      | Some _ => None
      | None => Some "[object Object]"
      end
  end.

(** [v.key] for a property name that no prototype defines, as [rest] and
    [home] are; [None] is the [TypeError] of reading a property of [null]
    or [undefined]. *)
Definition getProp (v : JSValue) (key : string) : option JSValue :=
  match v with
  | JUndefined | JNull => None
  | JObj fields =>
      Some (match lookup key fields with
            | Some x => x
            | None => JUndefined
            end)
  | _ => Some JUndefined
  end.

(** *** The configuration *)

Record UserCfg : Type := mkUserCfg { rest : JSValue; home : JSValue }.

(** [/^\d{2}:\d{2}$/] on a text. *)
Definition matchesHHMM (s : string) : bool :=
  match s with
  | String a (String b (String ":" (String c (String d EmptyString)))) =>
      isDigit a && isDigit b && isDigit c && isDigit d
  | _ => false
  end.

(** [isValidTimeStr(t)] returns [true]. *)
Definition isValidTimeStr (t : JSValue) : bool :=
  match ToString t with
  | Some s => matchesHHMM s
  | None => false
  end.

(** [isValidTimeStr(t)] throws: the conversion of [t] to a text does. *)
Definition testThrows (t : JSValue) : bool :=
  match ToString t with
  | Some _ => false
  | None => true
  end.

(** [Number.isFinite(h) ? Math.min(hi, Math.max(0, h)) : 0], where [None]
    is what is not a finite number ([NaN], an infinity, or the [undefined] of
    a missing piece). *)
Definition clampOr0 (hi : Z) (h : option Z) : Z :=
  match h with
  | Some h => Z.min hi (Z.max 0 h)
  | None => 0
  end.

(** [parseTimeToCfg(t, label)]; [None] is the [TypeError] of calling
    [split] on a value that is not a text. *)
Definition parseTimeToCfg (t : JSValue) (label : string) : option TimeCfg :=
  match t with
  | JStr s =>
      let parts := map parseInt10 (split s ":") in
      let h := nth 0 parts None in
      let m := nth 1 parts None in
      Some {| hours := clampOr0 23 h;
              minutes := clampOr0 59 m;
              label := label |}
  | _ => None
  end.

(** *** The wrapper as a state machine *)

Record AppState : Type := mkAppState
  { loading : bool;
    showModal : bool;
    userCfg : UserCfg;
    modalErr : string;
    persisted : option UserCfg }.

Definition defaultCfg : UserCfg :=
  {| rest := JStr "11:30"; home := JStr "16:00" |}.

Definition initial : AppState :=
  {| loading := true;
     showModal := false;
     userCfg := defaultCfg;
     modalErr := "";
     persisted := None |}.

Definition setLoading (b : bool) (s : AppState) : AppState :=
  {| loading := b; showModal := showModal s; userCfg := userCfg s;
     modalErr := modalErr s; persisted := persisted s |}.

Definition setShowModal (b : bool) (s : AppState) : AppState :=
  {| loading := loading s; showModal := b; userCfg := userCfg s;
     modalErr := modalErr s; persisted := persisted s |}.

Definition setUserCfg (cfg : UserCfg) (s : AppState) : AppState :=
  {| loading := loading s; showModal := showModal s; userCfg := cfg;
     modalErr := modalErr s; persisted := persisted s |}.

Definition setErr (e : string) (s : AppState) : AppState :=
  {| loading := loading s; showModal := showModal s; userCfg := userCfg s;
     modalErr := e; persisted := persisted s |}.

Definition setItem (cfg : UserCfg) (s : AppState) : AppState :=
  {| loading := loading s; showModal := showModal s; userCfg := userCfg s;
     modalErr := modalErr s; persisted := Some cfg |}.

(** What reading the stored configuration comes to. *)
Inductive StorageRead : Type :=
| GetItemThrows                 (* [localStorage.getItem] throws *)
| NoItem                        (* it returns [null] or the empty text *)
| ParseThrows                   (* [JSON.parse(raw)] throws *)
| Parsed (parsed : JSValue).    (* [JSON.parse(raw)] returns [parsed] *)

(** The body of the [try] block once [parsed] is there; [None] when a
    property read or the test of a field throws. *)
Definition validated (parsed : JSValue) : option UserCfg :=
  match getProp parsed "rest" with
  | None => None
  | Some r =>
      if testThrows r then None
      else
        let rest := if isValidTimeStr r then r else JStr "11:30" in
        match getProp parsed "home" with
        | None => None
        | Some h =>
            if testThrows h then None
            else
              let home := if isValidTimeStr h then h else JStr "16:00" in
              Some {| rest := rest; home := home |}
        end
  end.

(** The effect that loads the configuration when the wrapper mounts. *)
Definition load (r : StorageRead) (s : AppState) : AppState :=
  let caught := setShowModal true (setUserCfg defaultCfg s) in
  let s' :=
    match r with
    | GetItemThrows => caught
    | NoItem => setShowModal true s
    | ParseThrows => caught
    | Parsed parsed =>
        match validated parsed with
        | Some cfg => setShowModal false (setUserCfg cfg s)
        | None => caught
        end
    end in
  setLoading false s'.

(** [handleSave] of the wrapper. *)
Definition handleSave (cfg : UserCfg) (s : AppState) : AppState :=
  setItem cfg (setUserCfg cfg s).

(** [handleSave] of the modal, on the two fields of its form.  The
    condition [!isValidTimeStr(rest) || !isValidTimeStr(home)] tests the
    second field only when the first one passes; when a test throws, the
    handler is left before it has set anything. *)
Definition Modal_handleSave (rest home : JSValue) (s : AppState) : AppState :=
  if testThrows rest then s
  else if negb (isValidTimeStr rest)
  then setErr "Format waktu harus HH:MM (24 jam)." s
  else if testThrows home then s
  else if negb (isValidTimeStr home)
  then setErr "Format waktu harus HH:MM (24 jam)." s
  else setShowModal false (handleSave {| rest := rest; home := home |} s).

Inductive Event : Type :=
| Mount (r : StorageRead)       (* the loading effect runs *)
| Simpan (rest home : JSValue)  (* the save button, with the form fields *)
| Batal                         (* the cancel button *)
| UbahJam.                      (* the button that opens the modal *)

(** The event hands a new configuration object to the modal: it calls
    [setUserCfg]. *)
Definition setsUserCfg (e : Event) : bool :=
  match e with
  | Mount NoItem => false
  | Mount _ => true
  | Simpan rest home => isValidTimeStr rest && isValidTimeStr home
  | Batal | UbahJam => false
  end.

(** The effect of the modal on [[initial, isOpen]]: the error text is
    emptied when the modal is mounted, which is when the loading ends, and
    when the event has changed one of the two. *)
Definition Modal_effect (before after : AppState) (newInitial : bool)
  : AppState :=
  if (loading before && negb (loading after)) || newInitial ||
     negb (Bool.eqb (showModal before) (showModal after))
  then setErr "" after
  else after.

Definition step (s : AppState) (e : Event) : AppState :=
  let s' :=
    match e with
    | Mount r => load r s
    | Simpan rest home => Modal_handleSave rest home s
    | Batal => setShowModal false s
    | UbahJam => setShowModal true s
    end in
  Modal_effect s s' (setsUserCfg e).

Definition runEvents (es : list Event) : AppState := fold_left step es initial.

(** The states after any sequence of events; what a browser session can
    reach is among them. *)
Definition reachable (s : AppState) : Prop := exists es, runEvents es = s.

(** What the wrapper renders. *)
Inductive Screen : Type :=
| Memuat                                  (* the loading text *)
| RenderThrows                            (* [parseTimeToCfg] throws *)
| Shown (restAt homeAt : TimeCfg) (modalOpen : bool).

Definition WorkTimerApp (s : AppState) : Screen :=
  if loading s then Memuat
  else
    match parseTimeToCfg (rest (userCfg s)) "Waktunya istirahat" with
    | None => RenderThrows
    | Some restAt =>
        match parseTimeToCfg (home (userCfg s)) "Waktunya pulang" with
        | None => RenderThrows
        | Some homeAt => Shown restAt homeAt (showModal s)
        end
    end.

(** *** Sessions

    What [JSON.parse] reads back from the text that [handleSave] has
    written, [JSON.stringify(cfg)]: an object with the two fields (texts and
    arrays of texts go through [JSON] unchanged). *)
Definition stored_of (cfg : UserCfg) : JSValue :=
  JObj [("rest", rest cfg); ("home", home cfg)].

Definition isText (v : JSValue) : bool :=
  match v with JStr _ => true | _ => false end.

(** A stored field that is a text, or that the loading effect replaces. *)
Definition textField (field : option JSValue) : bool :=
  match field with
  | Some v => isText v || negb (isValidTimeStr v)
  | None => true
  end.

(** An event of a session in which the time fields are texts: the form
    fields of the modal are, and so is what the storage holds. *)
Definition textualEvent (e : Event) : bool :=
  match e with
  | Mount (Parsed parsed) =>
      textField (getProp parsed "rest") && textField (getProp parsed "home")
  | Simpan rest home => isText rest && isText home
  | _ => true
  end.

Definition isMount (e : Event) : bool :=
  match e with Mount _ => true | _ => false end.

End App.

(** ** The vocabulary of the specification *)

Import JS Timer App.

(** A time of day of the data model: hours in 0..23, minutes in 0..59. *)
Definition valid (cfg : TimeCfg) : Prop :=
  0 <= hours cfg <= 23 /\ 0 <= minutes cfg <= 59.

(** The target of the specification: the calendar date of [now] with the
    configured hours and minutes, seconds and milliseconds zero. *)
Definition target (cfg : TimeCfg) (now : Z) : Z :=
  Day now * msPerDay + hours cfg * msPerHour + minutes cfg * msPerMinute.

(** The anchor of the specification: 08:00:00 on the calendar date of the
    target. *)
Definition anchor (tgt : Z) : Z := Day tgt * msPerDay + 8 * msPerHour.

(** The decimal digit [d] as a character. *)
Definition digitChar (d : Z) : ascii := ascii_of_nat (48 + Z.to_nat d).

(** A number below 100 on two decimal digits. *)
Definition twoDigits (n : Z) : string :=
  String (digitChar (n / 10)) (String (digitChar (n mod 10)) EmptyString).

(** The text [HH:MM:SS]. *)
Definition hhmmss (h m s : Z) : string :=
  twoDigits h ++ ":" ++ twoDigits m ++ ":" ++ twoDigits s.

(** The three fields that [formatDiff] prints. *)
Definition fieldH (ms : Z) : Z := (Z.max 0 (ms / 1000) mod 86400) / 3600.
Definition fieldM (ms : Z) : Z := ((Z.max 0 (ms / 1000) mod 86400) mod 3600) / 60.
Definition fieldS (ms : Z) : Z := ((Z.max 0 (ms / 1000) mod 86400) mod 3600) mod 60.

(** [suffix] ends [s]. *)
Definition endsWith (s suffix : string) : bool :=
  let n := String.length s in
  let k := String.length suffix in
  (k <=? n)%nat && String.eqb (substring (n - k) k s) suffix.

(** A formatter and a stored snapshot for the concrete runs below. *)
Definition noText : Z -> string := fun _ => "".

Definition blank : CountdownState :=
  {| nowWita := 0; targetToday := 0; diffText := ""; status := "";
     progress := 0%Q; isCompleted := false |}.

(** The evaluation of the specification, [evaluate(config, now)]: the
    snapshot of a tick while the clock shows [now]. *)
Definition evaluate (fmt : Z -> string) (cfg : TimeCfg) (now : Z)
  : CountdownState :=
  run (tick fmt cfg blank) (frozen now).

(** The invariant of the wrapper: both fields of the configuration pass
    [isValidTimeStr]. *)
Definition cfgValid (cfg : UserCfg) : Prop :=
  isValidTimeStr (rest cfg) = true /\ isValidTimeStr (home cfg) = true.

(** The configured time of day as milliseconds after midnight. *)
Definition offsetOf (cfg : TimeCfg) : Z :=
  hours cfg * msPerHour + minutes cfg * msPerMinute.

(** The seconds that a text [HH:MM:SS] stands for, read with the
    primitives of the sources; [None] when the text has another shape. *)
Definition secondsOfText (t : string) : option Z :=
  match map parseInt10 (split t ":") with
  | [Some h; Some m; Some s] => Some (h * 3600 + m * 60 + s)
  | _ => None
  end.

(** The whole seconds that [formatDiff] works on. *)
Definition wholeSeconds (ms : Z) : Z := Z.max 0 (ms / 1000).

(** The character [c] occurs in [s]. *)
Fixpoint hasChar (c : ascii) (s : string) : bool :=
  match s with
  | String x rest => Ascii.eqb x c || hasChar c rest
  | EmptyString => false
  end.

(** Two cards that differ in their badge at most. *)
Definition sameButBadge (a b : CardView) : Prop :=
  heading a = heading b /\ countdownText a = countdownText b /\
  statusLine a = statusLine b /\ barWidth a = barWidth b /\
  barStyle a = barStyle b /\ greenText a = greenText b /\
  confetti a = confetti b.

(** The handles of the intervals of a window are below its next handle. *)
Definition freshHandles (w : Window) : Prop :=
  forall e, In e (intervals w) -> (fst e < nextHandle w)%nat.

(** What one instance of the hook keeps of a window that held the
    intervals of [w0] when the instance was created: while an effect is live,
    exactly one more interval, under the handle in [timerRef] and over the
    dependencies of that effect; otherwise none. *)
Definition hookInv (w0 : Window) (h : HookInstance) (w : Window) : Prop :=
  (nextHandle w0 <= nextHandle w)%nat /\
  match liveDeps h with
  | Some cfg =>
      exists id : nat,
        timerRef h = Some id /\
        (nextHandle w0 <= id < nextHandle w)%nat /\
        intervals w = (id, cfg) :: intervals w0
  | None => intervals w = intervals w0
  end.

(** ** Facts about the platform primitives *)

Lemma padStart_twoDigits (n : Z) :
  0 <= n < 100 -> padStart (String_of n) 2 "0" = twoDigits n.
Proof.
  intros Hn.
  assert (Hall : forallb
            (fun k => String.eqb (padStart (String_of (Z.of_nat k)) 2 "0")
                                 (twoDigits (Z.of_nat k)))
            (seq 0 100) = true) by (vm_compute; reflexivity).
  rewrite forallb_forall in Hall.
  specialize (Hall (Z.to_nat n)).
  rewrite Z2Nat.id in Hall by lia.
  apply String.eqb_eq, Hall, in_seq. lia.
Qed.

Lemma Day_MakeDate (d t : Z) :
  0 <= t < msPerDay -> Day (MakeDate d t) = d.
Proof.
  intros Ht. unfold Day, MakeDate, msPerDay in *.
  symmetry. apply Z.div_unique with (r := t); lia.
Qed.

Lemma geb_true_iff (a b : Z) : (a >=? b) = true <-> a >= b.
Proof. rewrite Z.geb_leb, Z.leb_le. lia. Qed.

Lemma geb_false_iff (a b : Z) : (a >=? b) = false <-> a < b.
Proof. rewrite Z.geb_leb, Z.leb_gt. lia. Qed.

(** ** Facts about [formatDiff] *)

Lemma fields_bounds (ms : Z) :
  0 <= fieldH ms <= 23 /\ 0 <= fieldM ms <= 59 /\ 0 <= fieldS ms <= 59.
Proof.
  unfold fieldH, fieldM, fieldS.
  generalize (Z.max 0 (ms / 1000)); intros t.
  pose proof (Z.mod_pos_bound t 86400 ltac:(lia)) as H1.
  pose proof (Z.mod_pos_bound (t mod 86400) 3600 ltac:(lia)) as H2.
  pose proof (Z.mod_pos_bound ((t mod 86400) mod 3600) 60 ltac:(lia)) as H3.
  repeat split; try lia.
  - apply Z.div_pos; lia.
  - apply Z.lt_succ_r, Z.div_lt_upper_bound; lia.
  - apply Z.div_pos; lia.
  - apply Z.lt_succ_r, Z.div_lt_upper_bound; lia.
Qed.

Lemma formatDiff_text (ms : Z) :
  text (formatDiff ms) = hhmmss (fieldH ms) (fieldM ms) (fieldS ms).
Proof.
  destruct (fields_bounds ms) as (Hh & Hm & Hs).
  unfold formatDiff, hhmmss; cbn [text].
  fold (fieldH ms) (fieldM ms) (fieldS ms).
  rewrite !padStart_twoDigits by lia. reflexivity.
Qed.

Lemma formatDiff_days_nonneg (ms : Z) : 0 <= days (formatDiff ms).
Proof.
  unfold formatDiff; cbn [days]. apply Z.div_pos; lia.
Qed.

Lemma formatDiff_nonpos (ms : Z) :
  ms <= 0 -> text (formatDiff ms) = "00:00:00" /\ days (formatDiff ms) = 0.
Proof.
  intros Hms.
  assert (Hq : ms / 1000 <= 0).
  { apply Z.lt_succ_r, Z.div_lt_upper_bound; lia. }
  unfold formatDiff; cbn [text days].
  replace (Z.max 0 (ms / 1000)) with 0 by lia.
  split; reflexivity.
Qed.

(** The fields add up to the whole seconds of a duration of less than a
    day. *)
Lemma fields_sum (ms : Z) :
  0 <= ms < msPerDay ->
  fieldH ms * 3600 + fieldM ms * 60 + fieldS ms = ms / 1000 /\
  days (formatDiff ms) = 0.
Proof.
  intros Hms. unfold msPerDay in Hms.
  assert (H0 : 0 <= ms / 1000) by (apply Z.div_pos; lia).
  assert (H1 : ms / 1000 < 86400) by (apply Z.div_lt_upper_bound; lia).
  unfold fieldH, fieldM, fieldS, formatDiff; cbn [days].
  replace (Z.max 0 (ms / 1000)) with (ms / 1000) by lia.
  generalize dependent (ms / 1000); intros t Ht0 Ht1.
  rewrite (Z.mod_small t 86400) by lia.
  split.
  - pose proof (Z.div_mod t 3600 ltac:(lia)).
    pose proof (Z.div_mod (t mod 3600) 60 ltac:(lia)). lia.
  - apply Z.div_small; lia.
Qed.

(** ** Facts about the hook *)

Lemma targetForDate_target (cfg : TimeCfg) (now : Z) :
  targetForDate (hours cfg) (minutes cfg) now = target cfg now.
Proof.
  unfold targetForDate, setHours, MakeDate, MakeTime, target,
    msPerSecond. lia.
Qed.

Lemma target_same_day (cfg : TimeCfg) (now : Z) :
  valid cfg -> Day (target cfg now) = Day now.
Proof.
  intros [Hh Hm]. unfold target.
  rewrite <- Z.add_assoc. apply Day_MakeDate.
  unfold msPerDay, msPerHour, msPerMinute. lia.
Qed.

(** Two instants of one calendar day are less than a day apart. *)
Lemma same_day_within (now tgt : Z) :
  Day tgt = Day now -> now < tgt -> 0 < tgt - now < msPerDay.
Proof.
  unfold Day, msPerDay. intros Hday Hlt.
  pose proof (Z.div_mod now 86400000 ltac:(lia)) as Hn.
  pose proof (Z.div_mod tgt 86400000 ltac:(lia)) as Ht.
  pose proof (Z.mod_pos_bound now 86400000 ltac:(lia)) as Hbn.
  pose proof (Z.mod_pos_bound tgt 86400000 ltac:(lia)) as Hbt.
  rewrite Hday in Ht. lia.
Qed.

(** For a valid time of day the anchor is not after the target exactly
    when the configured hour is 8 or later. *)
Lemma anchor_le_target (cfg : TimeCfg) (now : Z) :
  valid cfg ->
  (anchor (target cfg now) <= target cfg now <-> 8 <= hours cfg).
Proof.
  intros Hv. unfold anchor. rewrite (target_same_day cfg now Hv).
  destruct Hv as [Hh Hm].
  unfold target, msPerDay, msPerHour, msPerMinute. lia.
Qed.

Lemma progressToTarget_run (tgt startHour : Z) (c : Clock) (k : nat) :
  progressToTarget tgt startHour c k =
  (match pctOf (c k) tgt (dayStartOf (c k) tgt startHour) with
   | Fin q => q
   | _ => 0%Q
   end, S k).
Proof. reflexivity. Qed.

Section HookFacts.

Variable fmt : Z -> string.

Lemma tick_completed (cfg : TimeCfg) (stored : CountdownState)
  (c : Clock) (k : nat) :
  c k >= target cfg (c k) ->
  tick fmt cfg stored c k =
  ({| nowWita := c k;
      targetToday := target cfg (c k);
      diffText := "00:00:00";
      status := label cfg ++ " selesai 🎉 · hitung ulang setelah 00:00 WITA";
      progress := 100%Q;
      isCompleted := true |}, S k).
Proof.
  intros Hge. unfold tick, bind, nowInTZ.
  rewrite targetForDate_target.
  apply geb_true_iff in Hge. rewrite Hge. reflexivity.
Qed.

Lemma tick_counting (cfg : TimeCfg) (stored : CountdownState)
  (c : Clock) (k : nat) :
  c k < target cfg (c k) ->
  tick fmt cfg stored c k =
  ({| nowWita := c k;
      targetToday := target cfg (c k);
      diffText := text (formatDiff (target cfg (c k) - c k));
      status := "Target hari ini, " ++ fmt (target cfg (c k));
      progress := fst (progressToTarget (target cfg (c k)) 8 c (S k));
      isCompleted := false |}, S (S k)).
Proof.
  intros Hlt. unfold tick, bind, nowInTZ.
  rewrite targetForDate_target.
  apply geb_false_iff in Hlt. rewrite Hlt. reflexivity.
Qed.

(** A tick reads its instant from the clock and derives the target from it,
    whatever the clock and the stored snapshot are. *)
Lemma tick_now_target (cfg : TimeCfg) (stored : CountdownState)
  (c : Clock) (k : nat) :
  let st := fst (tick fmt cfg stored c k) in
  nowWita st = c k /\ targetToday st = target cfg (c k) /\
  isCompleted st = (c k >=? target cfg (c k)).
Proof.
  destruct (Z_lt_ge_dec (c k) (target cfg (c k))) as [Hlt | Hge].
  - rewrite tick_counting by assumption. cbn.
    apply geb_false_iff in Hlt. rewrite Hlt. auto.
  - rewrite tick_completed by assumption. cbn.
    apply geb_true_iff in Hge. rewrite Hge. auto.
Qed.

(** C1.  For a valid time of day and any instant [now] (the first sample of
    the clock), the snapshot of a tick has its target on the calendar date of
    [now] at the configured hours and minutes with zero seconds; it is
    completed exactly when [now >= target]; the displayed remaining time is
    the text of [max 0 (target - now)]; and when it is completed that
    duration is zero and the display is 00:00:00. *)
Theorem C1_completed_iff_and_remaining (cfg : TimeCfg)
  (stored : CountdownState) (c : Clock) :
  valid cfg ->
  let now := c O in
  let st := run (tick fmt cfg stored) c in
  nowWita st = now /\
  targetToday st = target cfg now /\
  Day (targetToday st) = Day now /\
  targetToday st mod msPerMinute = 0 /\
  (isCompleted st = true <-> now >= targetToday st) /\
  diffText st = text (formatDiff (Z.max 0 (targetToday st - now))) /\
  (isCompleted st = true ->
   Z.max 0 (targetToday st - now) = 0 /\ diffText st = "00:00:00").
Proof.
  intros Hv now st.
  destruct (tick_now_target cfg stored c O) as (Hn & Ht & Hc).
  fold (run (tick fmt cfg stored) c) in Hn, Ht, Hc. fold st in Hn, Ht, Hc.
  fold now in Hn, Ht, Hc.
  assert (Hmod : target cfg now mod msPerMinute = 0).
  { unfold target, msPerDay, msPerHour, msPerMinute.
    replace (Day now * 86400000 + hours cfg * 3600000 + minutes cfg * 60000)
      with ((Day now * 1440 + hours cfg * 60 + minutes cfg) * 60000) by lia.
    apply Z.mod_mul. lia. }
  rewrite Ht, Hc, geb_true_iff.
  repeat split; try assumption; try lia.
  - apply target_same_day, Hv.
  - subst st. unfold run.
    destruct (Z_lt_ge_dec now (target cfg now)) as [Hlt | Hge].
    + rewrite tick_counting by assumption. cbn [fst diffText].
      fold now. now replace (Z.max 0 (target cfg now - now))
        with (target cfg now - now) by lia.
    + rewrite tick_completed by assumption. cbn [fst diffText].
      fold now. replace (Z.max 0 (target cfg now - now)) with 0 by lia.
      reflexivity.
  - subst st. unfold run. rewrite tick_completed by assumption.
    reflexivity.
Qed.

End HookFacts.

Lemma C1_witness :
  let cfg := mkTimeCfg 16 0 "Waktunya pulang" in
  let before := run (tick noText cfg blank) (frozen 57599000) in
  let after := run (tick noText cfg blank) (frozen 57600000) in
  valid cfg /\
  (targetToday before = 57600000 /\ isCompleted before = false /\
   diffText before = "00:00:01") /\
  (isCompleted after = true /\
   Z.max 0 (targetToday after - 57600000) = 0 /\ diffText after = "00:00:00").
Proof.
  intros cfg before after.
  assert (Hv : valid cfg) by (unfold valid; cbn; lia).
  destruct (C1_completed_iff_and_remaining noText cfg blank
              (frozen 57599000) Hv) as (_ & Ht & _ & _ & _ & Hd & _).
  destruct (C1_completed_iff_and_remaining noText cfg blank
              (frozen 57600000) Hv) as (_ & _ & _ & _ & _ & _ & Hdone).
  assert (Hc : isCompleted after = true) by reflexivity.
  split; [exact Hv | ].
  split; [split; [exact Ht | split; [reflexivity | exact Hd]] | ].
  split; [exact Hc | exact (Hdone Hc)].
Defined.

(** ** Facts about the progress percentage *)

(** The start of the bar is always [startHour]:00 on the calendar date of
    the target, whichever branch computes it. *)
Lemma dayStartOf_target_date (witaNow tgt startHour : Z) :
  dayStartOf witaNow tgt startHour =
  Day tgt * msPerDay + startHour * msPerHour.
Proof.
  unfold dayStartOf, toDateString.
  destruct (Day tgt =? Day witaNow) eqn:Hd; cbn [negb].
  - apply Z.eqb_eq in Hd. unfold setHours, MakeDate, MakeTime.
    rewrite Hd. lia.
  - unfold setHours at 1. unfold setFullYear_of.
    rewrite Day_MakeDate.
    + unfold MakeDate, MakeTime. lia.
    + unfold TimeWithinDay. apply Z.mod_pos_bound. unfold msPerDay. lia.
Qed.

Lemma dayStartOf_anchor (witaNow tgt : Z) :
  dayStartOf witaNow tgt 8 = anchor tgt.
Proof. apply dayStartOf_target_date. Qed.

Lemma orElse_nonzero (x : Z) : orElse x 1 <> 0.
Proof.
  unfold orElse. destruct (x =? 0) eqn:Hx; [lia | ].
  apply Z.eqb_neq in Hx. exact Hx.
Qed.

(** The percentage is the clamped quotient, a finite number. *)
Lemma pctOf_Fin (witaNow tgt dayStart : Z) :
  let span := tgt - dayStart in
  let done := Z.max 0 (Z.min (tgt - witaNow) span) in
  pctOf witaNow tgt dayStart =
  Fin (Qmax 0 (Qmin 100
         (inject_Z (100 * (span - done)) / inject_Z (orElse span 1)))).
Proof.
  intros span done. unfold pctOf. fold span. fold done.
  unfold div.
  destruct (orElse span 1 =? 0) eqn:Hz.
  - apply Z.eqb_eq in Hz. now apply orElse_nonzero in Hz.
  - reflexivity.
Qed.

Lemma clamp_range (x : Q) : (0 <= Qmax 0 (Qmin 100 x) <= 100)%Q.
Proof.
  split.
  - apply Q.le_max_l.
  - apply Q.max_lub; [discriminate | apply Q.le_min_l].
Qed.

Lemma clamp_zero (b : Z) :
  (Qmax 0 (Qmin 100 (inject_Z 0 / inject_Z b)) == 0)%Q.
Proof.
  assert (Hq : (inject_Z 0 / inject_Z b == 0)%Q).
  { unfold Qdiv. apply Qmult_0_l. }
  assert (Hmin : (Qmin 100 (inject_Z 0 / inject_Z b) == 0)%Q).
  { rewrite Q.min_r; [exact Hq | rewrite Hq; discriminate]. }
  rewrite Q.max_r; [exact Hmin | rewrite Hmin; apply Qle_refl].
Qed.

Lemma clamp_id (q : Q) :
  (0 <= q <= 100)%Q -> (Qmax 0 (Qmin 100 q) == q)%Q.
Proof.
  intros [H0 H100].
  assert (Hmin : (Qmin 100 q == q)%Q) by (apply Q.min_r; exact H100).
  rewrite Q.max_r; [exact Hmin | rewrite Hmin; exact H0].
Qed.

Lemma clamp_mono (p q : Q) :
  (p <= q)%Q -> (Qmax 0 (Qmin 100 p) <= Qmax 0 (Qmin 100 q))%Q.
Proof.
  intros H. apply Q.max_le_compat_l, Q.min_le_compat_l, H.
Qed.

Lemma quotient_mono (a1 a2 b : Z) :
  0 < b -> a1 <= a2 ->
  (inject_Z a1 / inject_Z b <= inject_Z a2 / inject_Z b)%Q.
Proof.
  intros Hb Ha. unfold Qdiv. apply Qmult_le_compat_r.
  - rewrite <- Zle_Qle. exact Ha.
  - apply Qinv_le_0_compat. change 0%Q with (inject_Z 0).
    rewrite <- Zle_Qle. lia.
Qed.

Lemma quotient_full (b : Z) :
  b <> 0 -> (inject_Z (100 * b) / inject_Z b == 100)%Q.
Proof.
  intros Hb. rewrite inject_Z_mult. apply Qdiv_mult_l.
  intros H. apply Hb. change 0%Q with (inject_Z 0) in H.
  apply inject_Z_injective. exact H.
Qed.

Lemma orElse_keeps (x : Z) : x <> 0 -> orElse x 1 = x.
Proof. intros H. unfold orElse. apply Z.eqb_neq in H. now rewrite H. Qed.

(** The value that [progressToTarget] returns, for any clock. *)
Lemma progressToTarget_value (tgt startHour : Z) (c : Clock) (k : nat) :
  let witaNow := c k in
  let span := tgt - dayStartOf witaNow tgt startHour in
  let done := Z.max 0 (Z.min (tgt - witaNow) span) in
  fst (progressToTarget tgt startHour c k) =
  Qmax 0 (Qmin 100
    (inject_Z (100 * (span - done)) / inject_Z (orElse span 1))).
Proof.
  intros witaNow span done. rewrite progressToTarget_run. cbn [fst].
  fold witaNow. rewrite pctOf_Fin. reflexivity.
Qed.

Lemma progressToTarget_range (tgt startHour : Z) (c : Clock) (k : nat) :
  (0 <= fst (progressToTarget tgt startHour c k) <= 100)%Q.
Proof. rewrite progressToTarget_value. apply clamp_range. Qed.

(** Before the anchor, with the target not before the anchor, nothing of
    the span has elapsed. *)
Lemma progressToTarget_before_anchor (tgt : Z) (c : Clock) (k : nat) :
  c k <= anchor tgt <= tgt ->
  (fst (progressToTarget tgt 8 c k) == 0)%Q.
Proof.
  intros [Hnow Hspan]. rewrite progressToTarget_value.
  rewrite dayStartOf_anchor.
  replace (Z.max 0 (Z.min (tgt - c k) (tgt - anchor tgt)))
    with (tgt - anchor tgt) by lia.
  replace (100 * (tgt - anchor tgt - (tgt - anchor tgt))) with 0 by lia.
  apply clamp_zero.
Qed.

(** With an empty span the percentage is zero. *)
Lemma progressToTarget_span_zero (tgt startHour : Z) (c : Clock) (k : nat) :
  tgt - dayStartOf (c k) tgt startHour = 0 ->
  (fst (progressToTarget tgt startHour c k) == 0)%Q.
Proof.
  intros Hspan. rewrite progressToTarget_value. rewrite Hspan.
  replace (Z.max 0 (Z.min (tgt - c k) 0)) with 0 by lia.
  apply clamp_zero.
Qed.

Section ProgressFacts.

Variable fmt : Z -> string.

(** The progress of a snapshot is a percentage, for every clock. *)
Lemma tick_progress_range (cfg : TimeCfg) (stored : CountdownState)
  (c : Clock) (k : nat) :
  (0 <= progress (fst (tick fmt cfg stored c k)) <= 100)%Q.
Proof.
  destruct (Z_lt_ge_dec (c k) (target cfg (c k))) as [Hlt | Hge].
  - rewrite tick_counting by assumption. cbn [fst progress].
    apply progressToTarget_range.
  - rewrite tick_completed by assumption. cbn [fst progress].
    split; discriminate.
Qed.

(** C2, as the code has it.  For every time of day and every instant [now]:
    the progress lies in [0,100]; it is 100 when the snapshot is completed;
    and it is 0 when the snapshot is not completed, [now] is not after the
    anchor (08:00:00 on the date of the target) and the anchor is not after
    the target. *)
Theorem C2_progress_bounds (cfg : TimeCfg) (stored : CountdownState)
  (now : Z) :
  let st := run (tick fmt cfg stored) (frozen now) in
  (0 <= progress st <= 100)%Q /\
  (isCompleted st = true -> progress st = 100%Q) /\
  (isCompleted st = false ->
   now <= anchor (targetToday st) <= targetToday st ->
   (progress st == 0)%Q).
Proof.
  intros st. subst st. unfold run. split; [apply tick_progress_range | ].
  destruct (Z_lt_ge_dec (frozen now O) (target cfg (frozen now O)))
    as [Hlt | Hge].
  - rewrite tick_counting by assumption. cbn [fst progress isCompleted
      targetToday]. split; [discriminate | ].
    intros _ Hanchor. apply progressToTarget_before_anchor. exact Hanchor.
  - rewrite tick_completed by assumption. cbn [fst progress isCompleted].
    split; [reflexivity | discriminate].
Qed.

End ProgressFacts.

Lemma C2_witness :
  let cfg := mkTimeCfg 16 0 "Waktunya pulang" in
  let early := run (tick noText cfg blank) (frozen 25200000) in
  let late := run (tick noText cfg blank) (frozen 61200000) in
  (isCompleted early = false /\
   25200000 <= anchor (targetToday early) <= targetToday early /\
   (progress early == 0)%Q) /\
  (isCompleted late = true /\ progress late = 100%Q).
Proof.
  intros cfg early late.
  destruct (C2_progress_bounds noText cfg blank 25200000)
    as (_ & _ & Hzero).
  destruct (C2_progress_bounds noText cfg blank 61200000)
    as (_ & Hfull & _).
  assert (Hc : isCompleted early = false) by reflexivity.
  assert (Ha : 25200000 <= anchor (targetToday early) <= targetToday early)
    by (vm_compute; split; discriminate).
  assert (Hl : isCompleted late = true) by reflexivity.
  split; [split; [exact Hc | split; [exact Ha | exact (Hzero Hc Ha)]] | ].
  split; [exact Hl | exact (Hfull Hl)].
Defined.

(** C2 as it is written fails where the target is before 08:00.  With the
    time of day 07:00 and [now] = 07:30 the snapshot is completed, so the
    progress is 100 although [now <= anchor]; and at [now] = 06:00, not
    completed, the span is negative and the progress is 100 as well. *)
Lemma C2_counterexample :
  let cfg := mkTimeCfg 7 0 "Waktunya pulang" in
  let late := run (tick noText cfg blank) (frozen 27000000) in
  let early := run (tick noText cfg blank) (frozen 21600000) in
  (27000000 <= anchor (targetToday late) /\
   isCompleted late = true /\ ~ (progress late == 0)%Q) /\
  (21600000 <= anchor (targetToday early) /\
   isCompleted early = false /\ (progress early == 100)%Q /\
   ~ (progress early == 0)%Q).
Proof.
  cbv zeta. split.
  - split; [vm_compute; discriminate | ].
    split; [reflexivity | vm_compute; discriminate].
  - split; [vm_compute; discriminate | ].
    split; [reflexivity | ].
    split; [vm_compute; reflexivity | vm_compute; discriminate].
Qed.

(** C6, as the code has it.  For every target, start hour and clock, the
    divisor of the progress quotient is never zero: it is 1 when the span
    from the anchor to the target is exactly zero and the span itself when
    the span is not zero, negative spans included.  The percentage that
    [progressToTarget] computes is the quotient of 100 times the elapsed part
    of the span by that divisor, cut to [0,100]: a finite number, which is
    the result.  The result is 0 when the span is exactly zero and 100 when
    the span is negative. *)
Theorem C6_divisor_guard (tgt startHour : Z) (c : Clock) :
  let witaNow := c O in
  let dayStart := dayStartOf witaNow tgt startHour in
  let span := tgt - dayStart in
  let done := Z.max 0 (Z.min (tgt - witaNow) span) in
  let divisor := orElse span 1 in
  divisor <> 0 /\
  (span = 0 -> divisor = 1) /\
  (span <> 0 -> divisor = span) /\
  pctOf witaNow tgt dayStart =
    Fin (Qmax 0 (Qmin 100 (inject_Z (100 * (span - done)) / inject_Z divisor))) /\
  isFinite (pctOf witaNow tgt dayStart) = true /\
  run (progressToTarget tgt startHour) c =
    Qmax 0 (Qmin 100 (inject_Z (100 * (span - done)) / inject_Z divisor)) /\
  (0 <= run (progressToTarget tgt startHour) c <= 100)%Q /\
  (span = 0 -> (run (progressToTarget tgt startHour) c == 0)%Q) /\
  (span < 0 -> (run (progressToTarget tgt startHour) c == 100)%Q).
Proof.
  intros witaNow dayStart span done divisor.
  split; [apply orElse_nonzero | ].
  split; [intros H0; subst divisor; rewrite H0; reflexivity | ].
  split; [apply orElse_keeps | ].
  split; [apply pctOf_Fin | ].
  split; [rewrite pctOf_Fin; reflexivity | ].
  split; [apply progressToTarget_value | ].
  split; [apply progressToTarget_range | ].
  split; [intros H0; apply progressToTarget_span_zero; exact H0 | ].
  intros Hneg. unfold run. rewrite progressToTarget_value.
  fold witaNow. fold dayStart. fold span.
  replace (Z.max 0 (Z.min (tgt - witaNow) span)) with 0 by lia.
  rewrite Z.sub_0_r, orElse_keeps by lia.
  assert (Hq : (inject_Z (100 * span) / inject_Z span == 100)%Q)
    by (apply quotient_full; lia).
  rewrite clamp_id; [exact Hq | ].
  rewrite Hq. split; discriminate.
Qed.

Lemma C6_witness :
  let empty := 28800000 - dayStartOf 21600000 28800000 8 in
  let usual := 57600000 - dayStartOf 21600000 57600000 8 in
  let early := 25200000 - dayStartOf 21600000 25200000 8 in
  (empty = 0 /\ orElse empty 1 = 1 /\
   (run (progressToTarget 28800000 8) (frozen 21600000) == 0)%Q) /\
  (usual <> 0 /\ orElse usual 1 = usual) /\
  (early < 0 /\
   (run (progressToTarget 25200000 8) (frozen 21600000) == 100)%Q).
Proof.
  intros empty usual early.
  destruct (C6_divisor_guard 28800000 8 (frozen 21600000))
    as (_ & Hone & _ & _ & _ & _ & _ & Hzero & _).
  destruct (C6_divisor_guard 57600000 8 (frozen 21600000))
    as (_ & _ & Hspan & _).
  destruct (C6_divisor_guard 25200000 8 (frozen 21600000))
    as (_ & _ & _ & _ & _ & _ & _ & _ & Hfull).
  assert (Hs : empty = 0) by reflexivity.
  assert (Hu : usual <> 0) by (vm_compute; discriminate).
  assert (He : early < 0) by reflexivity.
  split; [split; [exact Hs | split; [exact (Hone Hs) | exact (Hzero Hs)]] | ].
  split; [split; [exact Hu | exact (Hspan Hu)] | ].
  split; [exact He | exact (Hfull He)].
Defined.

(** C6 as it is written fails for a negative span.  With the target at
    07:00 and the clock at 06:00 the span is -3600000; the divisor is the
    span, not 1, and the percentage is 100, where a divisor of 1 would give
    0. *)
Lemma C6_counterexample :
  let tgt := 25200000 in
  let witaNow := 21600000 in
  let span := tgt - dayStartOf witaNow tgt 8 in
  let done := Z.max 0 (Z.min (tgt - witaNow) span) in
  span <= 0 /\
  orElse span 1 <> 1 /\
  (run (progressToTarget tgt 8) (frozen witaNow) == 100)%Q /\
  (Qmax 0 (Qmin 100 (inject_Z (100 * (span - done)) / inject_Z 1)) == 0)%Q.
Proof.
  cbv zeta.
  split; [vm_compute; discriminate | ].
  split; [vm_compute; discriminate | ].
  split; vm_compute; reflexivity.
Qed.

(** ** The countdown text *)

Section CountdownText.

Variable fmt : Z -> string.

(** C5.  For every evaluation with [now] before the target and the target
    on the calendar date of [now], the snapshot is not completed and its
    text is the remaining duration [target - now] as two-digit hours,
    minutes and seconds, the hours in 0..23 and the minutes and seconds in
    0..59; the three fields add up to the whole seconds of the remaining
    duration, no day being dropped. *)
Theorem C5_remaining_hhmmss (cfg : TimeCfg) (stored : CountdownState)
  (c : Clock) :
  c O < target cfg (c O) ->
  Day (target cfg (c O)) = Day (c O) ->
  let st := run (tick fmt cfg stored) c in
  let remaining := targetToday st - nowWita st in
  let h := fieldH remaining in
  let m := fieldM remaining in
  let s := fieldS remaining in
  isCompleted st = false /\
  remaining = target cfg (c O) - c O /\
  diffText st = hhmmss h m s /\
  String.length (diffText st) = 8%nat /\
  0 <= h <= 23 /\ 0 <= m <= 59 /\ 0 <= s <= 59 /\
  h * 3600 + m * 60 + s = remaining / 1000 /\
  days (formatDiff remaining) = 0.
Proof.
  intros Hlt Hday st remaining h m s.
  assert (Hst : st = fst (tick fmt cfg stored c O)) by reflexivity.
  rewrite tick_counting in Hst by assumption. cbn [fst] in Hst.
  assert (Hrem : remaining = target cfg (c O) - c O)
    by (unfold remaining; rewrite Hst; reflexivity).
  assert (Hdt : diffText st = text (formatDiff remaining))
    by (rewrite Hrem, Hst; reflexivity).
  pose proof (fields_bounds remaining) as (Hh & Hm & Hs).
  pose proof (same_day_within (c O) (target cfg (c O)) Hday Hlt) as Hwithin.
  rewrite formatDiff_text in Hdt. fold h m s in Hdt, Hh, Hm, Hs.
  split; [rewrite Hst; reflexivity | ].
  split; [exact Hrem | ].
  split; [exact Hdt | ].
  split; [rewrite Hdt; reflexivity | ].
  repeat (split; [assumption | ]).
  apply fields_sum. rewrite Hrem. lia.
Qed.

End CountdownText.

Lemma C5_witness :
  let cfg := mkTimeCfg 16 0 "Waktunya pulang" in
  let now := 259200000 + 30600000 in
  let st := run (tick noText cfg blank) (frozen now) in
  now < target cfg now /\ Day (target cfg now) = Day now /\
  diffText st = "07:30:00".
Proof.
  intros cfg now st.
  assert (Hlt : frozen now O < target cfg (frozen now O))
    by (vm_compute; reflexivity).
  assert (Hday : Day (target cfg (frozen now O)) = Day (frozen now O))
    by (vm_compute; reflexivity).
  destruct (C5_remaining_hhmmss noText cfg blank (frozen now) Hlt Hday)
    as (_ & _ & Htext & _).
  split; [exact Hlt | split; [exact Hday | exact Htext]].
Defined.

(** C10.  [formatDiff] is defined on every integer number of milliseconds:
    its text is two-digit hours (0..23), minutes (0..59) and seconds
    (0..59), its count of days is not negative, and for every [ms <= 0] the
    text is 00:00:00 and the count of days is 0. *)
Theorem C10_formatDiff_total (ms : Z) :
  let h := fieldH ms in
  let m := fieldM ms in
  let s := fieldS ms in
  text (formatDiff ms) = hhmmss h m s /\
  0 <= h <= 23 /\ 0 <= m <= 59 /\ 0 <= s <= 59 /\
  0 <= days (formatDiff ms) /\
  (ms <= 0 -> text (formatDiff ms) = "00:00:00" /\ days (formatDiff ms) = 0).
Proof.
  intros h m s.
  pose proof (fields_bounds ms) as (Hh & Hm & Hs).
  split; [apply formatDiff_text | ].
  repeat (split; [assumption | ]).
  split; [apply formatDiff_days_nonneg | apply formatDiff_nonpos].
Qed.

Lemma C10_witness :
  -5000 <= 0 /\
  text (formatDiff (-5000)) = "00:00:00" /\ days (formatDiff (-5000)) = 0.
Proof.
  destruct (C10_formatDiff_total (-5000)) as (_ & _ & _ & _ & _ & Hneg).
  assert (H : -5000 <= 0) by lia.
  split; [exact H | exact (Hneg H)].
Defined.

(** ** Determinism of the evaluation *)

Section Evaluation.

Variable fmt : Z -> string.

(** A tick depends on the clock through the two samples it can take, and
    not on the stored snapshot. *)
Lemma tick_evaluate (cfg : TimeCfg) (stored : CountdownState)
  (c : Clock) (k : nat) (now : Z) :
  c k = now -> c (S k) = now ->
  fst (tick fmt cfg stored c k) = evaluate fmt cfg now.
Proof.
  intros Hk HSk. unfold evaluate, run.
  destruct (Z_lt_ge_dec now (target cfg now)) as [Hlt | Hge].
  - rewrite !tick_counting by (cbv [frozen]; rewrite ?Hk; assumption).
    rewrite !progressToTarget_run. cbv [frozen]. cbn [fst].
    rewrite Hk, HSk. reflexivity.
  - rewrite !tick_completed by (cbv [frozen]; rewrite ?Hk; assumption).
    cbv [frozen]. cbn [fst]. rewrite Hk. reflexivity.
Qed.

Lemma evaluate_now_target (cfg : TimeCfg) (now : Z) :
  nowWita (evaluate fmt cfg now) = now /\
  targetToday (evaluate fmt cfg now) = target cfg now.
Proof.
  destruct (tick_now_target fmt cfg blank (frozen now) O) as (Hn & Ht & _).
  split; assumption.
Qed.

(** The hook, started while the clock shows [now], settles on the
    evaluation at [now]. *)
Lemma useCountdown_frozen (cfg : TimeCfg) (now : Z) (k : nat) :
  fst (useCountdown fmt cfg (frozen now) k) = evaluate fmt cfg now.
Proof.
  unfold useCountdown, bind.
  destruct (initState fmt cfg (frozen now) k) as [stored k'].
  apply tick_evaluate; reflexivity.
Qed.

(** The initialiser of the hook, for any clock. *)
Lemma initState_run (cfg : TimeCfg) (c : Clock) (k : nat) :
  initState fmt cfg c k =
  if c k >=? target cfg (c k)
  then ({| nowWita := c k;
           targetToday := target cfg (c k);
           diffText := "00:00:00";
           status := label cfg ++ " selesai 🎉";
           progress := 100%Q;
           isCompleted := true |}, S k)
  else ({| nowWita := c k;
           targetToday := target cfg (c k);
           diffText := text (formatDiff (Z.max 0 (target cfg (c k) - c k)));
           status := "Target hari ini, " ++ fmt (target cfg (c k));
           progress := fst (progressToTarget (target cfg (c k)) 8 c (S k));
           isCompleted := false |}, S (S k)).
Proof.
  unfold initState, bind, nowInTZ. rewrite targetForDate_target.
  destruct (c k >=? target cfg (c k)); reflexivity.
Qed.

Lemma initState_frozen (cfg : TimeCfg) (c : Clock) (k : nat) (now : Z) :
  c k = now -> c (S k) = now ->
  fst (initState fmt cfg c k) = run (initState fmt cfg) (frozen now).
Proof.
  intros Hk HSk. unfold run. rewrite !initState_run.
  cbv [frozen]. rewrite Hk.
  destruct (now >=? target cfg now); cbn [fst]; [reflexivity | ].
  rewrite !progressToTarget_run. cbn [fst]. rewrite HSk. reflexivity.
Qed.

(** The initialiser and the tick agree on every field but the status text
    of a completed countdown, to which the tick adds a remark. *)
Lemma initState_agrees_with_tick (cfg : TimeCfg) (now : Z) :
  let i := run (initState fmt cfg) (frozen now) in
  let t := evaluate fmt cfg now in
  nowWita i = nowWita t /\
  targetToday i = targetToday t /\
  diffText i = diffText t /\
  progress i = progress t /\
  isCompleted i = isCompleted t /\
  (isCompleted t = false -> status i = status t) /\
  (isCompleted t = true ->
   status i = label cfg ++ " selesai 🎉" /\
   status t = label cfg ++ " selesai 🎉 · hitung ulang setelah 00:00 WITA").
Proof.
  intros i t. subst i t. unfold evaluate, run. rewrite initState_run.
  destruct (Z_lt_ge_dec now (target cfg now)) as [Hlt | Hge].
  - rewrite tick_counting by exact Hlt. cbv [frozen].
    apply geb_false_iff in Hlt as Hgeb. rewrite Hgeb.
    cbn [fst nowWita targetToday diffText progress isCompleted status].
    replace (Z.max 0 (target cfg now - now)) with (target cfg now - now)
      by lia.
    repeat split; try reflexivity; discriminate.
  - rewrite tick_completed by exact Hge. cbv [frozen].
    apply geb_true_iff in Hge as Hgeb. rewrite Hgeb.
    cbn [fst nowWita targetToday diffText progress isCompleted status].
    repeat split; try reflexivity; discriminate.
Qed.

(** C9.  While the clock shows the instant [now], a tick produces the same
    snapshot whatever the stored snapshot, the clock and the sample index
    are; running the tick again on the store it has written leaves the
    store as it is; the four fields of the consumer contract agree; and the
    initialiser of the hook is as independent of the clock and the index. *)
Theorem C9_tick_deterministic (cfg : TimeCfg) (now : Z)
  (c1 c2 : Clock) (k1 k2 : nat) (s1 s2 : CountdownState) :
  (forall k, c1 k = now) ->
  (forall k, c2 k = now) ->
  let first := tick fmt cfg s1 c1 k1 in
  let again := tick fmt cfg (fst first) c1 (snd first) in
  let other := tick fmt cfg s2 c2 k2 in
  fst again = fst first /\
  fst other = fst first /\
  diffText (fst other) = diffText (fst first) /\
  status (fst other) = status (fst first) /\
  progress (fst other) = progress (fst first) /\
  isCompleted (fst other) = isCompleted (fst first) /\
  fst (initState fmt cfg c2 k2) = fst (initState fmt cfg c1 k1).
Proof.
  intros H1 H2 first again other.
  assert (Hf : fst first = evaluate fmt cfg now)
    by (apply tick_evaluate; apply H1).
  assert (Ha : fst again = evaluate fmt cfg now)
    by (apply tick_evaluate; apply H1).
  assert (Ho : fst other = evaluate fmt cfg now)
    by (apply tick_evaluate; apply H2).
  rewrite Ha, Ho, Hf. repeat (split; [reflexivity | ]).
  rewrite (initState_frozen cfg c1 k1 now), (initState_frozen cfg c2 k2 now)
    by auto.
  reflexivity.
Qed.

End Evaluation.

Lemma C9_witness :
  let cfg := mkTimeCfg 11 30 "Waktunya istirahat" in
  let now := 36000000 in
  let first := tick noText cfg blank (frozen now) O in
  let other := tick noText cfg (fst first) (fun _ => now) 7%nat in
  fst other = fst first /\ diffText (fst first) = "01:30:00".
Proof.
  intros cfg now first other.
  destruct (C9_tick_deterministic noText cfg now (frozen now) (fun _ => now)
              O 7%nat blank (fst first)
              (fun _ => eq_refl) (fun _ => eq_refl))
    as (_ & Hother & _).
  split; [exact Hother | reflexivity].
Defined.

(** ** The component and the day of the week *)

Section Component.

Variables fmt fmtHeader : Z -> string.

(** What the component holds and renders while the clock shows [now]. *)
Lemma TimerWITA_frozen (restAt homeAt : TimeCfg) (now : Z) :
  let r := run (TimerWITA fmt fmtHeader restAt homeAt) (frozen now) in
  let eff :=
    if getDay now =? 6
    then {| hours := 14; minutes := 0; label := label homeAt ++ " (Sabtu)" |}
    else homeAt in
  istirahat r = evaluate fmt restAt now /\
  effectiveHome r = eff /\
  pulang r = evaluate fmt eff now /\
  sundayBadge r = (getDay now =? 0) /\
  headerClock r = fmtHeader now /\
  cards r =
    (if getDay now =? 0
     then [HolidayCard; HolidayCard]
     else [Card "Menuju Istirahat"
             (formatBadgeTime (hours restAt) (minutes restAt))
             (evaluate fmt restAt now) amber;
           Card "Menuju Pulang"
             (formatBadgeTime (hours eff) (minutes eff))
             (evaluate fmt eff now) emerald]).
Proof.
  intros r eff. subst r. unfold run, TimerWITA, bind.
  pose proof (useCountdown_frozen fmt restAt now O) as H1.
  destruct (useCountdown fmt restAt (frozen now) O) as [i k1].
  cbn [fst] in H1. subst i.
  destruct (evaluate_now_target fmt restAt now) as [Hnow _].
  rewrite Hnow. fold eff.
  pose proof (useCountdown_frozen fmt eff now k1) as H2.
  destruct (useCountdown fmt eff (frozen now) k1) as [p k2].
  cbn [fst] in H2. subst p.
  cbn [ret fst istirahat effectiveHome pulang sundayBadge headerClock cards].
  repeat split; reflexivity.
Qed.

(** C3, as the code has it.  For every pair of configured times of day and
    every instant of a Saturday: the time of day of the home countdown is
    14:00 with the label of the configured one followed by the qualifier
    (Sabtu), Indonesian for Saturday; the target of the home countdown is
    14:00 of that date, whatever hours and minutes are configured; and the
    snapshot, the target and the badge of the rest countdown are those of
    the configured rest time of day. *)
Theorem C3_saturday_override (restAt homeAt : TimeCfg) (now : Z) :
  getDay now = 6 ->
  let r := run (TimerWITA fmt fmtHeader restAt homeAt) (frozen now) in
  effectiveHome r =
    {| hours := 14; minutes := 0; label := label homeAt ++ " (Sabtu)" |} /\
  pulang r = evaluate fmt (effectiveHome r) now /\
  targetToday (pulang r) = Day now * msPerDay + 14 * msPerHour /\
  (forall h m : Z,
      pulang (run (TimerWITA fmt fmtHeader restAt
                     {| hours := h; minutes := m; label := label homeAt |})
                (frozen now)) = pulang r) /\
  istirahat r = evaluate fmt restAt now /\
  targetToday (istirahat r) = target restAt now /\
  map badge (cards r) =
    [formatBadgeTime (hours restAt) (minutes restAt); "14:00 WITA"].
Proof.
  intros Hsat r.
  destruct (TimerWITA_frozen restAt homeAt now)
    as (Hi & He & Hp & _ & _ & Hc).
  fold r in Hi, He, Hp, Hc. rewrite Hsat in He, Hp, Hc.
  cbn [Z.eqb Pos.eqb] in He, Hp, Hc.
  split; [exact He | ].
  split; [rewrite He; exact Hp | ].
  split.
  { rewrite Hp. destruct (evaluate_now_target fmt
      {| hours := 14; minutes := 0; label := label homeAt ++ " (Sabtu)" |}
      now) as [_ Ht].
    rewrite Ht. unfold target. cbn [hours minutes]. lia. }
  split.
  { intros h m.
    destruct (TimerWITA_frozen restAt
                {| hours := h; minutes := m; label := label homeAt |} now)
      as (_ & _ & Hp' & _).
    rewrite Hsat in Hp'. cbn [Z.eqb Pos.eqb label] in Hp'.
    rewrite Hp', Hp. reflexivity. }
  split; [exact Hi | ].
  split.
  { rewrite Hi. apply evaluate_now_target. }
  rewrite Hc. reflexivity.
Qed.

(** C4, as the code has it.  For every pair of configured times of day and
    every instant of a Sunday: both cards are the holiday card, which names
    no target in its badge or its status line and shows 00:00:00 and the
    full green bar of a completed card, and the header carries the Sunday
    badge; the cards are the same for every configuration;
    the two countdown hooks are evaluated all the same, and the component
    holds their snapshots without rendering them, but for the instant of
    the rest snapshot, which the header shows and the day of the week is
    read from. *)
Theorem C4_sunday_holiday (restAt homeAt : TimeCfg) (now : Z) :
  getDay now = 0 ->
  let r := run (TimerWITA fmt fmtHeader restAt homeAt) (frozen now) in
  cards r = [HolidayCard; HolidayCard] /\
  sundayBadge r = true /\
  Forall (fun card =>
            badge card = "WITA" /\
            statusLine card =
              "Selamat beristirahat! Countdown kerja akan kembali besok (Senin)." /\
            countdownText card = "00:00:00" /\
            barWidth card = 100%Q /\
            barStyle card = GreenPulse /\
            greenText card = true) (cards r) /\
  (forall (title badge : string) (data : CountdownState) (accent : Accent),
      isCompleted data = true ->
      let card := Card title badge data accent in
      barWidth card = barWidth HolidayCard /\
      barStyle card = barStyle HolidayCard /\
      greenText card = greenText HolidayCard) /\
  (forall restAt' homeAt' : TimeCfg,
      cards (run (TimerWITA fmt fmtHeader restAt' homeAt') (frozen now)) =
      cards r) /\
  istirahat r = evaluate fmt restAt now /\
  pulang r = evaluate fmt homeAt now /\
  headerClock r = fmtHeader (nowWita (istirahat r)).
Proof.
  intros Hsun r.
  destruct (TimerWITA_frozen restAt homeAt now)
    as (Hi & _ & Hp & Hb & Hh & Hc).
  fold r in Hi, Hp, Hb, Hh, Hc. rewrite Hsun in Hp, Hb, Hc.
  cbn [Z.eqb] in Hp, Hb, Hc.
  split; [exact Hc | ].
  split; [exact Hb | ].
  split.
  { rewrite Hc. repeat constructor. }
  split.
  { intros title bdg data accent Hdone card. subst card. unfold Card.
    cbn [barWidth barStyle greenText]. rewrite Hdone. repeat split. }
  split.
  { intros restAt' homeAt'.
    destruct (TimerWITA_frozen restAt' homeAt' now)
      as (_ & _ & _ & _ & _ & Hc').
    rewrite Hsun in Hc'. cbn [Z.eqb] in Hc'. rewrite Hc', Hc. reflexivity. }
  split; [exact Hi | ].
  split; [exact Hp | ].
  rewrite Hh, Hi. destruct (evaluate_now_target fmt restAt now) as [Hn _].
  rewrite Hn. reflexivity.
Qed.

End Component.

Lemma C3_witness :
  let now := 205200000 in
  let r := run (TimerWITA noText noText DEFAULT_REST DEFAULT_HOME)
             (frozen now) in
  getDay now = 6 /\
  targetToday (pulang r) = 172800000 + 50400000 /\
  diffText (pulang r) = "05:00:00".
Proof.
  intros now r.
  assert (Hsat : getDay now = 6) by reflexivity.
  destruct (C3_saturday_override noText noText DEFAULT_REST DEFAULT_HOME
              now Hsat) as (_ & _ & Ht & _).
  split; [exact Hsat | split; [exact Ht | reflexivity]].
Defined.

(** C3 as it is written has the label followed by the qualifier
    (Saturday).  On Saturday 3 January 1970, 09:00, the label of the home
    countdown is the configured one followed by (Sabtu): it does not end
    with (Saturday). *)
Lemma C3_counterexample :
  let now := 205200000 in
  let r := run (TimerWITA noText noText DEFAULT_REST DEFAULT_HOME)
             (frozen now) in
  getDay now = 6 /\
  label (effectiveHome r) = "Waktunya pulang (Sabtu)" /\
  endsWith (label (effectiveHome r)) "(Sabtu)" = true /\
  endsWith (label (effectiveHome r)) "(Saturday)" = false /\
  label (effectiveHome r) <> label DEFAULT_HOME ++ " (Saturday)".
Proof.
  cbv zeta. split; [reflexivity | ]. split; [reflexivity | ].
  split; [reflexivity | ]. split; [reflexivity | ].
  intros H. discriminate H.
Qed.

Lemma C4_witness :
  let now := 288000000 in
  let r := run (TimerWITA noText noText DEFAULT_REST DEFAULT_HOME)
             (frozen now) in
  let done := evaluate noText DEFAULT_HOME 57600000 in
  getDay now = 0 /\
  map countdownText (cards r) = ["00:00:00"; "00:00:00"] /\
  isCompleted done = true /\
  barWidth (Card "Menuju Pulang" "16:00 WITA" done emerald) =
  barWidth HolidayCard.
Proof.
  intros now r done.
  assert (Hsun : getDay now = 0) by reflexivity.
  destruct (C4_sunday_holiday noText noText DEFAULT_REST DEFAULT_HOME
              now Hsun) as (Hc & _ & _ & Hlook & _).
  assert (Hd : isCompleted done = true) by reflexivity.
  split; [exact Hsun | ].
  split; [exact (f_equal (map countdownText) Hc) | ].
  split; [exact Hd | ].
  exact (proj1 (Hlook "Menuju Pulang" "16:00 WITA" done emerald Hd)).
Defined.

(** C4 as it is written has no countdown computed on a Sunday.  On Sunday
    4 January 1970, 08:00, with the default configuration, the hooks of the
    component hold a target and a running countdown for each schedule, and
    these depend on the configured time of day. *)
Lemma C4_counterexample :
  let now := 288000000 in
  let r := run (TimerWITA noText noText DEFAULT_REST DEFAULT_HOME)
             (frozen now) in
  let r' := run (TimerWITA noText noText (mkTimeCfg 12 30 "Waktunya istirahat")
                   DEFAULT_HOME) (frozen now) in
  getDay now = 0 /\
  targetToday (istirahat r) = 259200000 + 41400000 /\
  isCompleted (istirahat r) = false /\
  diffText (istirahat r) = "03:30:00" /\
  diffText (pulang r) = "08:00:00" /\
  diffText (istirahat r') = "04:30:00".
Proof.
  cbv zeta. repeat (split; [reflexivity | ]). reflexivity.
Qed.

(** ** The configuration boundary *)

Lemma isDigit_cases (a : ascii) :
  isDigit a = true ->
  In a ["0"; "1"; "2"; "3"; "4"; "5"; "6"; "7"; "8"; "9"]%char.
Proof.
  destruct a as [b0 b1 b2 b3 b4 b5 b6 b7].
  destruct b0, b1, b2, b3, b4, b5, b6, b7; intros H;
    try discriminate H; cbn; auto 12.
Qed.

Lemma digitValue_range (a : ascii) :
  isDigit a = true -> 0 <= digitValue a <= 9.
Proof.
  intros H. apply isDigit_cases in H. cbn in H.
  repeat (destruct H as [<- | H]; [vm_compute; split; discriminate | ]).
  contradiction.
Qed.

Lemma parseInt10_two_digits (a b : ascii) :
  isDigit a = true -> isDigit b = true ->
  parseInt10 (String a (String b EmptyString)) =
  Some (10 * digitValue a + digitValue b).
Proof.
  intros Ha Hb. apply isDigit_cases in Ha, Hb. cbn in Ha, Hb.
  repeat (destruct Ha as [<- | Ha];
          [repeat (destruct Hb as [<- | Hb]; [reflexivity | ]);
           contradiction | ]).
  contradiction.
Qed.

Lemma split_HHMM (a b c d : ascii) :
  isDigit a = true -> isDigit b = true ->
  isDigit c = true -> isDigit d = true ->
  split (String a (String b (String ":" (String c (String d EmptyString)))))
        ":" =
  [String a (String b EmptyString); String c (String d EmptyString)].
Proof.
  intros Ha Hb Hc Hd.
  assert (Hne : forall x, isDigit x = true -> Ascii.eqb x ":" = false).
  { intros x Hx. destruct (Ascii.eqb x ":") eqn:E; [ | reflexivity].
    apply Ascii.eqb_eq in E. subst x. discriminate Hx. }
  unfold split. cbn [splitAux].
  rewrite (Hne a Ha), (Hne b Hb), (Hne c Hc), (Hne d Hd).
  reflexivity.
Qed.

(** A text that matches the pattern is two digits, a colon, two digits. *)
Lemma matchesHHMM_inv (s : string) :
  matchesHHMM s = true ->
  exists a b c d,
    s = String a (String b (String ":" (String c (String d EmptyString)))) /\
    isDigit a = true /\ isDigit b = true /\
    isDigit c = true /\ isDigit d = true.
Proof.
  unfold matchesHHMM. intros H.
  destruct s as [ | a [ | b [ | x s]]]; try discriminate H.
  destruct x as [[] [] [] [] [] [] [] []]; try discriminate H.
  destruct s as [ | c [ | d [ | ? ?]]]; try discriminate H.
  apply andb_true_iff in H as [H Hd].
  apply andb_true_iff in H as [H Hc].
  apply andb_true_iff in H as [Ha Hb].
  exists a, b, c, d. auto.
Qed.

Lemma clampOr0_range (hi : Z) (h : option Z) :
  0 <= hi -> 0 <= clampOr0 hi h <= hi.
Proof. intros Hhi. destruct h as [h | ]; cbn; lia. Qed.

(** Whatever text reaches [parseTimeToCfg], the time of day it builds is in
    range. *)
Lemma parseTimeToCfg_valid (t : JSValue) (lbl : string) (cfg : TimeCfg) :
  parseTimeToCfg t lbl = Some cfg -> valid cfg.
Proof.
  destruct t; cbn; try discriminate.
  intros [= <-]. unfold valid; cbn [hours minutes].
  split; apply clampOr0_range; lia.
Qed.

Lemma parseTimeToCfg_text (t : JSValue) (lbl : string) (cfg : TimeCfg) :
  parseTimeToCfg t lbl = Some cfg -> exists s, t = JStr s.
Proof. destruct t; cbn; try discriminate. eauto. Qed.

(** On a text that matches the pattern, the two numbers are read exactly
    and clamped. *)
Lemma parseTimeToCfg_HHMM (a b c d : ascii) (lbl : string) :
  isDigit a = true -> isDigit b = true ->
  isDigit c = true -> isDigit d = true ->
  parseTimeToCfg
    (JStr (String a (String b (String ":" (String c (String d EmptyString))))))
    lbl =
  Some {| hours := Z.min 23 (10 * digitValue a + digitValue b);
          minutes := Z.min 59 (10 * digitValue c + digitValue d);
          label := lbl |}.
Proof.
  intros Ha Hb Hc Hd. unfold parseTimeToCfg.
  rewrite split_HHMM by assumption. cbn [map nth].
  rewrite !parseInt10_two_digits by assumption.
  pose proof (digitValue_range a Ha). pose proof (digitValue_range b Hb).
  pose proof (digitValue_range c Hc). pose proof (digitValue_range d Hd).
  unfold clampOr0. do 2 f_equal; f_equal; lia.
Qed.

(** What the [try] block builds when nothing throws. *)
Lemma validated_Some (parsed : JSValue) (cfg : UserCfg) :
  validated parsed = Some cfg ->
  exists r h : JSValue,
    getProp parsed "rest" = Some r /\ getProp parsed "home" = Some h /\
    testThrows r = false /\ testThrows h = false /\
    cfg = {| rest := if isValidTimeStr r then r else JStr "11:30";
             home := if isValidTimeStr h then h else JStr "16:00" |}.
Proof.
  unfold validated.
  destruct (getProp parsed "rest") as [r | ]; [ | discriminate].
  destruct (testThrows r) eqn:Tr; [discriminate | ].
  destruct (getProp parsed "home") as [h | ]; [ | discriminate].
  destruct (testThrows h) eqn:Th; [discriminate | ].
  intros [= <-]. exists r, h. auto.
Qed.

Lemma validated_cfgValid (parsed : JSValue) (cfg : UserCfg) :
  validated parsed = Some cfg -> cfgValid cfg.
Proof.
  intros H. destruct (validated_Some _ _ H) as (r & h & _ & _ & _ & _ & ->).
  split; cbn [rest home].
  - destruct (isValidTimeStr r) eqn:E; [exact E | reflexivity].
  - destruct (isValidTimeStr h) eqn:E; [exact E | reflexivity].
Qed.

(** The effect of the modal touches the error text only. *)
Lemma Modal_effect_fields (before after : AppState) (flag : bool) :
  loading (Modal_effect before after flag) = loading after /\
  showModal (Modal_effect before after flag) = showModal after /\
  userCfg (Modal_effect before after flag) = userCfg after /\
  persisted (Modal_effect before after flag) = persisted after.
Proof.
  unfold Modal_effect.
  destruct (loading before && negb (loading after) || flag ||
            negb (Bool.eqb (showModal before) (showModal after)));
    repeat split.
Qed.

Lemma step_userCfg (s : AppState) (e : Event) :
  userCfg (step s e) =
  userCfg (match e with
           | Mount r => load r s
           | Simpan rest home => Modal_handleSave rest home s
           | Batal => setShowModal false s
           | UbahJam => setShowModal true s
           end).
Proof. unfold step. apply Modal_effect_fields. Qed.

Lemma step_loading (s : AppState) (e : Event) :
  loading (step s e) =
  loading (match e with
           | Mount r => load r s
           | Simpan rest home => Modal_handleSave rest home s
           | Batal => setShowModal false s
           | UbahJam => setShowModal true s
           end).
Proof. unfold step. apply Modal_effect_fields. Qed.

Lemma step_showModal (s : AppState) (e : Event) :
  showModal (step s e) =
  showModal (match e with
             | Mount r => load r s
             | Simpan rest home => Modal_handleSave rest home s
             | Batal => setShowModal false s
             | UbahJam => setShowModal true s
             end).
Proof. unfold step. apply Modal_effect_fields. Qed.

Lemma step_persisted (s : AppState) (e : Event) :
  persisted (step s e) =
  persisted (match e with
             | Mount r => load r s
             | Simpan rest home => Modal_handleSave rest home s
             | Batal => setShowModal false s
             | UbahJam => setShowModal true s
             end).
Proof. unfold step. apply Modal_effect_fields. Qed.

Lemma isValidTimeStr_calm (t : JSValue) :
  isValidTimeStr t = true -> testThrows t = false.
Proof.
  unfold isValidTimeStr, testThrows.
  destruct (ToString t); [reflexivity | discriminate].
Qed.

Lemma isValidTimeStr_throws (t : JSValue) :
  testThrows t = true -> isValidTimeStr t = false.
Proof.
  unfold isValidTimeStr, testThrows.
  destruct (ToString t); [discriminate | reflexivity].
Qed.

Lemma Modal_handleSave_cases (r h : JSValue) (s : AppState) :
  Modal_handleSave r h s = s \/
  Modal_handleSave r h s = setErr "Format waktu harus HH:MM (24 jam)." s \/
  (isValidTimeStr r = true /\ isValidTimeStr h = true /\
   Modal_handleSave r h s =
   setShowModal false (handleSave {| rest := r; home := h |} s)).
Proof.
  unfold Modal_handleSave.
  destruct (testThrows r); [left; reflexivity | ].
  destruct (isValidTimeStr r); [ | right; left; reflexivity].
  destruct (testThrows h); [left; reflexivity | ].
  destruct (isValidTimeStr h); [ | right; left; reflexivity].
  right. right. auto.
Qed.

Lemma Modal_handleSave_accepted (r h : JSValue) (s : AppState) :
  isValidTimeStr r = true -> isValidTimeStr h = true ->
  Modal_handleSave r h s =
  setShowModal false (handleSave {| rest := r; home := h |} s).
Proof.
  intros Hr Hh. unfold Modal_handleSave.
  rewrite (isValidTimeStr_calm r Hr), (isValidTimeStr_calm h Hh), Hr, Hh.
  reflexivity.
Qed.

Lemma step_cfgValid (s : AppState) (e : Event) :
  cfgValid (userCfg s) -> cfgValid (userCfg (step s e)).
Proof.
  intros Hs. rewrite step_userCfg. destruct e as [r | rv hv | | ].
  - unfold load. destruct r as [ | | | parsed]; cbn; try exact Hs;
      try (split; reflexivity).
    destruct (validated parsed) as [cfg | ] eqn:E; cbn.
    + eapply validated_cfgValid, E.
    + split; reflexivity.
  - destruct (Modal_handleSave_cases rv hv s) as [-> | [-> | (Er & Eh & ->)]];
      [exact Hs | exact Hs | split; assumption].
  - exact Hs.
  - exact Hs.
Qed.

Lemma fold_step_cfgValid (es : list Event) (s : AppState) :
  cfgValid (userCfg s) -> cfgValid (userCfg (fold_left step es s)).
Proof.
  revert s. induction es as [ | e es IH]; intros s Hs; cbn.
  - exact Hs.
  - apply IH, step_cfgValid, Hs.
Qed.

Lemma reachable_cfgValid (s : AppState) :
  reachable s -> cfgValid (userCfg s).
Proof.
  intros [es <-]. apply fold_step_cfgValid. split; reflexivity.
Qed.

(** C7.  In every state that the wrapper can reach, both fields of the
    configuration match the pattern of two digits, a colon and two digits;
    whenever the wrapper hands two times of day to the timer, they come from
    such texts and have hours in 0..23 and minutes in 0..59; a text that
    does not match is refused by the save button (the configuration stays as
    it is) and replaced by the default when it is read from the storage; a
    matching text is read as its two numbers, the hours cut at 23 and the
    minutes at 59; and so the matching text 99:99 gives 23:59. *)
Theorem C7_configuration_boundary (s : AppState) :
  reachable s ->
  cfgValid (userCfg s) /\
  (forall (restAt homeAt : TimeCfg) (modalOpen : bool),
      WorkTimerApp s = Shown restAt homeAt modalOpen ->
      valid restAt /\ valid homeAt /\
      exists r h : string,
        userCfg s = {| rest := JStr r; home := JStr h |} /\
        matchesHHMM r = true /\ matchesHHMM h = true) /\
  (forall (t : string) (other : JSValue),
      matchesHHMM t = false ->
      userCfg (step s (Simpan (JStr t) other)) = userCfg s /\
      userCfg (step s (Simpan other (JStr t))) = userCfg s) /\
  (forall (t : string) (parsed : JSValue),
      matchesHHMM t = false ->
      (getProp parsed "rest" = Some (JStr t) ->
       rest (userCfg (step s (Mount (Parsed parsed)))) = JStr "11:30") /\
      (getProp parsed "home" = Some (JStr t) ->
       home (userCfg (step s (Mount (Parsed parsed)))) = JStr "16:00")) /\
  (forall (a b c d : ascii) (lbl : string),
      isDigit a = true -> isDigit b = true ->
      isDigit c = true -> isDigit d = true ->
      parseTimeToCfg
        (JStr (String a (String b (String ":"
                 (String c (String d EmptyString)))))) lbl =
      Some {| hours := Z.min 23 (10 * digitValue a + digitValue b);
              minutes := Z.min 59 (10 * digitValue c + digitValue d);
              label := lbl |}) /\
  (forall lbl : string,
      matchesHHMM "99:99" = true /\
      parseTimeToCfg (JStr "99:99") lbl =
      Some {| hours := 23; minutes := 59; label := lbl |}).
Proof.
  intros Hreach. pose proof (reachable_cfgValid s Hreach) as Hinv.
  split; [exact Hinv | ].
  split.
  { intros restAt homeAt modalOpen Hshown. unfold WorkTimerApp in Hshown.
    destruct (loading s); [discriminate | ].
    destruct (parseTimeToCfg (rest (userCfg s)) "Waktunya istirahat")
      as [ra | ] eqn:Er; [ | discriminate].
    destruct (parseTimeToCfg (home (userCfg s)) "Waktunya pulang")
      as [ha | ] eqn:Eh; [ | discriminate].
    injection Hshown as -> -> _.
    split; [eapply parseTimeToCfg_valid, Er | ].
    split; [eapply parseTimeToCfg_valid, Eh | ].
    destruct (parseTimeToCfg_text _ _ _ Er) as [r Hr].
    destruct (parseTimeToCfg_text _ _ _ Eh) as [h Hh].
    destruct Hinv as [Hvr Hvh]. rewrite Hr in Hvr. rewrite Hh in Hvh.
    exists r, h. destruct (userCfg s) as [r0 h0]. cbn [rest home] in *.
    subst r0 h0. auto. }
  split.
  { intros t other Ht. rewrite !step_userCfg.
    assert (Hbad : isValidTimeStr (JStr t) = false) by exact Ht.
    split.
    - unfold Modal_handleSave.
      change (testThrows (JStr t)) with false. cbv iota.
      rewrite Hbad. reflexivity.
    - destruct (Modal_handleSave_cases other (JStr t) s)
        as [-> | [-> | (_ & Hgood & _)]];
        [reflexivity | reflexivity | congruence]. }
  split.
  { intros t parsed Ht.
    assert (Hbad : isValidTimeStr (JStr t) = false) by exact Ht.
    assert (Hcalm : testThrows (JStr t) = false) by reflexivity.
    split; intros Hget; rewrite step_userCfg; unfold load, validated.
    - rewrite Hget, Hcalm, Hbad.
      destruct (getProp parsed "home") as [h | ]; [ | reflexivity].
      destruct (testThrows h); reflexivity.
    - rewrite Hget, Hcalm, Hbad.
      destruct (getProp parsed "rest") as [r | ]; [ | reflexivity].
      destruct (testThrows r); reflexivity. }
  split; [intros a b c d lbl; apply parseTimeToCfg_HHMM | ].
  intros lbl. split; reflexivity.
Qed.

Lemma C7_witness :
  let stored := JObj [("rest", JStr "99:99"); ("home", JStr "7:5")] in
  let s := runEvents [Mount (Parsed stored)] in
  let restAt := {| hours := 23; minutes := 59;
                   label := "Waktunya istirahat" |} in
  let homeAt := {| hours := 16; minutes := 0; label := "Waktunya pulang" |} in
  reachable s /\
  WorkTimerApp s = Shown restAt homeAt false /\
  valid restAt /\ valid homeAt /\
  matchesHHMM "7:5" = false /\
  userCfg (step s (Simpan (JStr "7:5") (JStr "17:00"))) = userCfg s /\
  home (userCfg (step s (Mount (Parsed stored)))) = JStr "16:00" /\
  parseTimeToCfg (JStr "07:45") "Waktunya pulang" =
    Some {| hours := 7; minutes := 45; label := "Waktunya pulang" |}.
Proof.
  intros stored s restAt homeAt.
  assert (Hr : reachable s) by (exists [Mount (Parsed stored)]; reflexivity).
  destruct (C7_configuration_boundary s Hr)
    as (_ & Hshown & Hmodal & Hload & Hread & _).
  assert (Hs : WorkTimerApp s = Shown restAt homeAt false) by reflexivity.
  assert (Hbad : matchesHHMM "7:5" = false) by reflexivity.
  destruct (Hshown _ _ _ Hs) as (Hvr & Hvh & _).
  split; [exact Hr | split; [exact Hs | ]].
  split; [exact Hvr | split; [exact Hvh | split; [exact Hbad | ]]].
  split; [exact (proj1 (Hmodal "7:5" (JStr "17:00") Hbad)) | ].
  split; [exact (proj2 (Hload "7:5" stored Hbad) eq_refl) | ].
  exact (Hread "0"%char "7"%char "4"%char "5"%char "Waktunya pulang"
           eq_refl eq_refl eq_refl eq_refl).
Defined.

(** C8, as the code has it.  Loading the stored configuration always ends
    the loading phase.  When reading or parsing throws, when the parsed value
    is [null], or when the test of a stored field throws, both fields fall
    back to the defaults 11:30 and 16:00 and the modal is opened.  When there
    is no stored item the configuration stays as it is and the modal is
    opened.  When a value was parsed and the test throws on neither field,
    each field is the stored one if it passes [isValidTimeStr] and its own
    default otherwise, and the modal is not opened.  In every case, loading
    from the initial state, each field of the result is the default or the
    stored field, which then passes the test. *)
Theorem C8_load_fallback (r : StorageRead) (s : AppState) :
  let s' := load r s in
  let s0 := load r initial in
  loading s' = false /\
  (r = GetItemThrows \/ r = ParseThrows \/
   (exists parsed, r = Parsed parsed /\ getProp parsed "rest" = None) \/
   (exists parsed rv, r = Parsed parsed /\
      getProp parsed "rest" = Some rv /\ testThrows rv = true) \/
   (exists parsed hv, r = Parsed parsed /\
      getProp parsed "home" = Some hv /\ testThrows hv = true) ->
   userCfg s' = defaultCfg /\ showModal s' = true) /\
  (r = NoItem -> userCfg s' = userCfg s /\ showModal s' = true) /\
  (forall parsed rv hv,
      r = Parsed parsed ->
      getProp parsed "rest" = Some rv ->
      getProp parsed "home" = Some hv ->
      testThrows rv = false ->
      testThrows hv = false ->
      rest (userCfg s') = (if isValidTimeStr rv then rv else JStr "11:30") /\
      home (userCfg s') = (if isValidTimeStr hv then hv else JStr "16:00") /\
      showModal s' = false) /\
  (showModal s' = true \/ showModal s' = false /\ exists parsed rv hv,
      r = Parsed parsed /\
      getProp parsed "rest" = Some rv /\ testThrows rv = false /\
      getProp parsed "home" = Some hv /\ testThrows hv = false) /\
  (rest (userCfg s0) = JStr "11:30" \/
   exists parsed, r = Parsed parsed /\
     getProp parsed "rest" = Some (rest (userCfg s0)) /\
     isValidTimeStr (rest (userCfg s0)) = true) /\
  (home (userCfg s0) = JStr "16:00" \/
   exists parsed, r = Parsed parsed /\
     getProp parsed "home" = Some (home (userCfg s0)) /\
     isValidTimeStr (home (userCfg s0)) = true).
Proof.
  intros s' s0. subst s' s0.
  split; [reflexivity | ].
  split.
  { intros [-> | [-> | [(parsed & -> & Hnone) | [(parsed & rv & -> & Hr & Ht)
                                               | (parsed & hv & -> & Hh & Ht)]]]];
      try (split; reflexivity); unfold load, validated.
    - rewrite Hnone. split; reflexivity.
    - rewrite Hr, Ht. split; reflexivity.
    - rewrite Hh, Ht.
      destruct (getProp parsed "rest") as [rv | ]; [ | split; reflexivity].
      destruct (testThrows rv); split; reflexivity. }
  split; [intros ->; split; reflexivity | ].
  split.
  { intros parsed rv hv -> Hr Hh Htr Hth. unfold load, validated.
    rewrite Hr, Hh, Htr, Hth. split; [reflexivity | split; reflexivity]. }
  destruct r as [ | | | parsed];
    try (split; [left; reflexivity | split; left; reflexivity]).
  unfold load, validated.
  destruct (getProp parsed "rest") as [rv | ] eqn:Hr;
    [ | split; [left; reflexivity | split; left; reflexivity]].
  destruct (testThrows rv) eqn:Htr;
    [split; [left; reflexivity | split; left; reflexivity] | ].
  destruct (getProp parsed "home") as [hv | ] eqn:Hh;
    [ | split; [left; reflexivity | split; left; reflexivity]].
  destruct (testThrows hv) eqn:Hth;
    [split; [left; reflexivity | split; left; reflexivity] | ].
  cbn [setLoading setShowModal setUserCfg userCfg rest home showModal].
  split.
  { right. split; [reflexivity | ]. exists parsed, rv, hv. auto. }
  split.
  - destruct (isValidTimeStr rv) eqn:Ev; [right | left; reflexivity].
    exists parsed. auto.
  - destruct (isValidTimeStr hv) eqn:Ev; [right | left; reflexivity].
    exists parsed. auto.
Qed.

Lemma C8_witness :
  let stored := JObj [("rest", JStr "12:15"); ("home", JNum 17)] in
  let s' := load (Parsed stored) initial in
  let odd := JObj [("rest", JObj [("toString", JNum 0)]);
                   ("home", JStr "17:00")] in
  (getProp stored "rest" = Some (JStr "12:15") /\
   getProp stored "home" = Some (JNum 17) /\
   testThrows (JStr "12:15") = false /\
   testThrows (JNum 17) = false /\
   rest (userCfg s') = JStr "12:15" /\
   home (userCfg s') = JStr "16:00" /\
   showModal s' = false) /\
  (userCfg (load ParseThrows initial) = defaultCfg /\
   showModal (load ParseThrows initial) = true) /\
  (testThrows (JObj [("toString", JNum 0)]) = true /\
   userCfg (load (Parsed odd) initial) = defaultCfg /\
   showModal (load (Parsed odd) initial) = true) /\
  (userCfg (load NoItem initial) = userCfg initial /\
   showModal (load NoItem initial) = true).
Proof.
  intros stored s' odd.
  destruct (C8_load_fallback (Parsed stored) initial)
    as (_ & _ & _ & Hparsed & _).
  destruct (C8_load_fallback ParseThrows initial) as (_ & Hthrows & _).
  destruct (C8_load_fallback (Parsed odd) initial) as (_ & Hodd & _).
  destruct (C8_load_fallback NoItem initial) as (_ & _ & Hnone & _).
  assert (Hr : getProp stored "rest" = Some (JStr "12:15")) by reflexivity.
  assert (Hh : getProp stored "home" = Some (JNum 17)) by reflexivity.
  assert (Htr : testThrows (JStr "12:15") = false) by reflexivity.
  assert (Hth : testThrows (JNum 17) = false) by reflexivity.
  assert (Hto : testThrows (JObj [("toString", JNum 0)]) = true)
    by reflexivity.
  split.
  { split; [exact Hr | split; [exact Hh | ]].
    split; [exact Htr | split; [exact Hth | ]].
    exact (Hparsed stored (JStr "12:15") (JNum 17) eq_refl Hr Hh Htr Hth). }
  split; [exact (Hthrows (or_intror (or_introl eq_refl))) | ].
  split.
  { split; [exact Hto | ].
    apply Hodd. right. right. right. left.
    exists odd, (JObj [("toString", JNum 0)]).
    split; [reflexivity | split; [reflexivity | exact Hto]]. }
  exact (Hnone eq_refl).
Defined.

(** C8 as it is written has every stored field that does not match fall
    back to both defaults with a request to re-enter.  With the stored value
    rest = 25h, home = 17:00 only the rest field falls back, the home field
    is kept, and the modal stays closed. *)
Lemma C8_counterexample :
  let stored := JObj [("rest", JStr "25h"); ("home", JStr "17:00")] in
  let s' := load (Parsed stored) initial in
  isValidTimeStr (JStr "25h") = false /\
  userCfg s' = {| rest := JStr "11:30"; home := JStr "17:00" |} /\
  userCfg s' <> defaultCfg /\
  showModal s' = false.
Proof.
  cbv zeta. split; [reflexivity | ]. split; [reflexivity | ].
  split; [ | reflexivity].
  intros H. discriminate H.
Qed.

(** ** Further runs *)

(** The examples of the specification: at 15:59:59 the home countdown shows
    one second and is not completed; at 16:00:00 it is completed with a
    progress of 100. *)
Example home_one_second_left :
  let st := evaluate noText DEFAULT_HOME 57599000 in
  diffText st = "00:00:01" /\ isCompleted st = false.
Proof. split; reflexivity. Qed.

Example home_completed_on_time :
  let st := evaluate noText DEFAULT_HOME 57600000 in
  isCompleted st = true /\ progress st = 100%Q /\ diffText st = "00:00:00".
Proof. repeat split; reflexivity. Qed.

(** Half of the span from 08:00 to 16:00 has elapsed at noon. *)
Example home_half_way :
  (progress (evaluate noText DEFAULT_HOME 43200000) == 50)%Q.
Proof. vm_compute. reflexivity. Qed.

(** The cast of the parsed value is not checked: an array with one matching
    text passes [isValidTimeStr], is stored as it is, and makes the render
    throw when [parseTimeToCfg] calls [split] on it. *)
Example array_field_passes_and_render_throws :
  let stored :=
    JObj [("rest", JArr [JStr "12:30"]); ("home", JStr "16:00")] in
  let s := runEvents [Mount (Parsed stored)] in
  isValidTimeStr (JArr [JStr "12:30"]) = true /\
  rest (userCfg s) = JArr [JStr "12:30"] /\
  WorkTimerApp s = RenderThrows.
Proof. repeat split; reflexivity. Qed.

(** The error text of a refused save is emptied when the modal is closed
    or reopened and when a save is accepted; it stays through another
    refused save. *)
Example error_text_is_emptied :
  let s := runEvents [Mount NoItem; Simpan (JStr "5pm") (JStr "17:00")] in
  modalErr s = "Format waktu harus HH:MM (24 jam)." /\
  modalErr (step s Batal) = "" /\
  modalErr (step s (Simpan (JStr "12:00") (JStr "17:00"))) = "" /\
  modalErr (step s (Simpan (JStr "12:00") (JStr "5pm"))) =
    "Format waktu harus HH:MM (24 jam).".
Proof. repeat split; reflexivity. Qed.

(** A name that is repeated in the stored text reads as its last value. *)
Example repeated_name_reads_last :
  getProp (JObj [("rest", JStr "10:00"); ("rest", JStr "11:00")]) "rest" =
  Some (JStr "11:00").
Proof. reflexivity. Qed.

(** ** More about [formatDiff] *)

Lemma digitChar_digit (d : Z) :
  0 <= d <= 9 ->
  isDigit (digitChar d) = true /\ digitValue (digitChar d) = d.
Proof.
  intros Hd.
  assert (Hcases : d = 0 \/ d = 1 \/ d = 2 \/ d = 3 \/ d = 4 \/
                   d = 5 \/ d = 6 \/ d = 7 \/ d = 8 \/ d = 9) by lia.
  repeat (destruct Hcases as [-> | Hcases]; [split; reflexivity | ]).
  subst d. split; reflexivity.
Qed.

Lemma twoDigits_digits (n : Z) :
  0 <= n < 100 ->
  exists a b : ascii,
    twoDigits n = String a (String b EmptyString) /\
    isDigit a = true /\ isDigit b = true /\
    10 * digitValue a + digitValue b = n.
Proof.
  intros Hn. exists (digitChar (n / 10)), (digitChar (n mod 10)).
  assert (H10 : 0 <= n / 10 <= 9).
  { split; [apply Z.div_pos; lia | ].
    apply Z.lt_succ_r, Z.div_lt_upper_bound; lia. }
  assert (H1 : 0 <= n mod 10 <= 9)
    by (pose proof (Z.mod_pos_bound n 10 ltac:(lia)); lia).
  destruct (digitChar_digit _ H10) as [Ha Hva].
  destruct (digitChar_digit _ H1) as [Hb Hvb].
  rewrite Hva, Hvb. repeat split; try assumption.
  pose proof (Z.div_mod n 10 ltac:(lia)). lia.
Qed.

Lemma digit_not_colon (x : ascii) :
  isDigit x = true -> Ascii.eqb x ":" = false.
Proof.
  intros Hx. destruct (Ascii.eqb x ":") eqn:E; [ | reflexivity].
  apply Ascii.eqb_eq in E. subst x. discriminate Hx.
Qed.

Lemma split_HHMMSS (a b c d e f : ascii) :
  isDigit a = true -> isDigit b = true ->
  isDigit c = true -> isDigit d = true ->
  isDigit e = true -> isDigit f = true ->
  split (String a (String b (String ":" (String c (String d
           (String ":" (String e (String f EmptyString)))))))) ":" =
  [String a (String b EmptyString); String c (String d EmptyString);
   String e (String f EmptyString)].
Proof.
  intros Ha Hb Hc Hd He Hf. unfold split. cbn [splitAux].
  rewrite (digit_not_colon a Ha), (digit_not_colon b Hb),
    (digit_not_colon c Hc), (digit_not_colon d Hd),
    (digit_not_colon e He), (digit_not_colon f Hf).
  reflexivity.
Qed.

Lemma secondsOfText_hhmmss (h m s : Z) :
  0 <= h < 100 -> 0 <= m < 100 -> 0 <= s < 100 ->
  secondsOfText (hhmmss h m s) = Some (h * 3600 + m * 60 + s).
Proof.
  intros Hh Hm Hs.
  destruct (twoDigits_digits h Hh) as (a & b & Eh & Ha & Hb & Vh).
  destruct (twoDigits_digits m Hm) as (c & d & Em & Hc & Hd & Vm).
  destruct (twoDigits_digits s Hs) as (e & f & Es & He & Hf & Vs).
  unfold secondsOfText, hhmmss. rewrite Eh, Em, Es.
  cbn [append]. rewrite split_HHMMSS by assumption. cbn [map].
  rewrite !parseInt10_two_digits by assumption.
  rewrite Vh, Vm, Vs. reflexivity.
Qed.

Lemma fields_of_wholeSeconds (ms : Z) :
  fieldH ms = (wholeSeconds ms mod 86400) / 3600 /\
  fieldM ms = ((wholeSeconds ms mod 86400) mod 3600) / 60 /\
  fieldS ms = ((wholeSeconds ms mod 86400) mod 3600) mod 60.
Proof. repeat split. Qed.

Lemma fields_recompose (ms : Z) :
  fieldH ms * 3600 + fieldM ms * 60 + fieldS ms = wholeSeconds ms mod 86400.
Proof.
  destruct (fields_of_wholeSeconds ms) as (-> & -> & ->).
  generalize (wholeSeconds ms mod 86400); intros t.
  pose proof (Z.div_mod t 3600 ltac:(lia)).
  pose proof (Z.div_mod (t mod 3600) 60 ltac:(lia)). lia.
Qed.

(** X1.  [formatDiff] loses no second: the count of days and the three
    printed fields add up to the whole seconds of the duration, negative
    durations counting as zero. *)
Theorem formatDiff_accounts_for_every_second (ms : Z) :
  days (formatDiff ms) * 86400 +
  fieldH ms * 3600 + fieldM ms * 60 + fieldS ms = Z.max 0 (ms / 1000) /\
  text (formatDiff ms) = hhmmss (fieldH ms) (fieldM ms) (fieldS ms).
Proof.
  split; [ | apply formatDiff_text].
  rewrite <- !Z.add_assoc, (Z.add_assoc (fieldH ms * 3600)).
  rewrite fields_recompose.
  unfold formatDiff, wholeSeconds; cbn [days].
  pose proof (Z.div_mod (Z.max 0 (ms / 1000)) 86400 ltac:(lia)). lia.
Qed.

Lemma secondsOfText_formatDiff (ms : Z) :
  secondsOfText (text (formatDiff ms)) = Some (wholeSeconds ms mod 86400).
Proof.
  rewrite formatDiff_text.
  pose proof (fields_bounds ms) as (Hh & Hm & Hs).
  rewrite secondsOfText_hhmmss by lia.
  rewrite fields_recompose. reflexivity.
Qed.

(** X2.  The text of [formatDiff] reads back as the whole seconds of the
    duration modulo one day, and so two durations print the same text
    exactly when their whole seconds agree modulo one day: the text alone
    does not tell a duration from the same duration plus whole days. *)
Theorem formatDiff_text_reads_back (a b : Z) :
  secondsOfText (text (formatDiff a)) = Some (wholeSeconds a mod 86400) /\
  (text (formatDiff a) = text (formatDiff b) <->
   wholeSeconds a mod 86400 = wholeSeconds b mod 86400).
Proof.
  split; [apply secondsOfText_formatDiff | ].
  split.
  - intros Heq. pose proof (secondsOfText_formatDiff a) as Ha.
    rewrite Heq, secondsOfText_formatDiff in Ha.
    injection Ha as Ha. symmetry. exact Ha.
  - intros Heq. rewrite !formatDiff_text.
    destruct (fields_of_wholeSeconds a) as (-> & -> & ->).
    destruct (fields_of_wholeSeconds b) as (-> & -> & ->).
    rewrite Heq. reflexivity.
Qed.

(** A duration of less than a day reads back as its whole seconds. *)
Lemma secondsOfText_within_day (ms : Z) :
  0 <= ms < msPerDay ->
  secondsOfText (text (formatDiff ms)) = Some (ms / 1000).
Proof.
  intros Hms. unfold msPerDay in Hms. rewrite secondsOfText_formatDiff.
  assert (H0 : 0 <= ms / 1000) by (apply Z.div_pos; lia).
  assert (H1 : ms / 1000 < 86400) by (apply Z.div_lt_upper_bound; lia).
  unfold wholeSeconds. rewrite Z.max_r by lia.
  rewrite Z.mod_small by lia. reflexivity.
Qed.

(** ** More about the countdown *)

Lemma now_splits (now : Z) : now = Day now * msPerDay + TimeWithinDay now.
Proof.
  unfold Day, TimeWithinDay, msPerDay.
  pose proof (Z.div_mod now 86400000 ltac:(lia)). lia.
Qed.

Lemma target_offset (cfg : TimeCfg) (now : Z) :
  target cfg now = Day now * msPerDay + offsetOf cfg.
Proof. unfold target, offsetOf. lia. Qed.

Lemma target_of_same_day (cfg : TimeCfg) (now now' : Z) :
  Day now' = Day now -> target cfg now' = target cfg now.
Proof. intros H. unfold target. rewrite H. reflexivity. Qed.

(** An instant between two instants of one day is of that day. *)
Lemma Day_between (lo mid hi : Z) :
  lo <= mid <= hi -> Day hi = Day lo -> Day mid = Day lo.
Proof.
  intros [H1 H2] Hd. unfold Day, msPerDay in *.
  pose proof (Z.div_le_mono lo mid 86400000 ltac:(lia) H1).
  pose proof (Z.div_le_mono mid hi 86400000 ltac:(lia) H2). lia.
Qed.

Section CountdownMore.

Variable fmt : Z -> string.

Lemma evaluate_completed (cfg : TimeCfg) (now : Z) :
  now >= target cfg now ->
  evaluate fmt cfg now =
  {| nowWita := now;
     targetToday := target cfg now;
     diffText := "00:00:00";
     status := label cfg ++ " selesai 🎉 · hitung ulang setelah 00:00 WITA";
     progress := 100%Q;
     isCompleted := true |}.
Proof.
  intros Hge. unfold evaluate, run.
  rewrite tick_completed by exact Hge. reflexivity.
Qed.

Lemma evaluate_counting (cfg : TimeCfg) (now : Z) :
  now < target cfg now ->
  evaluate fmt cfg now =
  {| nowWita := now;
     targetToday := target cfg now;
     diffText := text (formatDiff (target cfg now - now));
     status := "Target hari ini, " ++ fmt (target cfg now);
     progress := fst (progressToTarget (target cfg now) 8 (frozen now) 1%nat);
     isCompleted := false |}.
Proof.
  intros Hlt. unfold evaluate, run.
  rewrite tick_counting by exact Hlt. reflexivity.
Qed.

Lemma completed_by_time_of_day (cfg : TimeCfg) (now : Z) :
  isCompleted (evaluate fmt cfg now) = (TimeWithinDay now >=? offsetOf cfg).
Proof.
  pose proof (now_splits now) as Hnow.
  pose proof (target_offset cfg now) as Htgt.
  destruct (Z_lt_ge_dec now (target cfg now)) as [Hlt | Hge].
  - rewrite evaluate_counting by exact Hlt. cbn [isCompleted].
    symmetry. apply geb_false_iff. lia.
  - rewrite evaluate_completed by exact Hge. cbn [isCompleted].
    symmetry. apply geb_true_iff. lia.
Qed.

(** X3.  Whether a countdown is completed depends on the time of day of
    [now] alone: it is completed exactly when the milliseconds since local
    midnight have reached the configured hours and minutes.  So a completed
    countdown stays completed for the rest of the calendar day. *)
Theorem completion_follows_time_of_day (cfg : TimeCfg) (now : Z) :
  (isCompleted (evaluate fmt cfg now) = true <->
   TimeWithinDay now >= offsetOf cfg) /\
  (forall later : Z,
      now <= later -> Day later = Day now ->
      isCompleted (evaluate fmt cfg now) = true ->
      isCompleted (evaluate fmt cfg later) = true).
Proof.
  split.
  - rewrite completed_by_time_of_day. apply geb_true_iff.
  - intros later Hle Hday. rewrite !completed_by_time_of_day.
    rewrite !geb_true_iff.
    pose proof (now_splits now). pose proof (now_splits later).
    rewrite Hday in *. lia.
Qed.

(** X4.  At local midnight the countdown of a valid time of day other
    than 00:00 starts again: it is not completed and its text is the
    configured time itself, as hours, minutes and zero seconds. *)
Theorem countdown_restarts_at_midnight (cfg : TimeCfg) (now : Z) :
  valid cfg ->
  0 < offsetOf cfg ->
  TimeWithinDay now = 0 ->
  isCompleted (evaluate fmt cfg now) = false /\
  diffText (evaluate fmt cfg now) = hhmmss (hours cfg) (minutes cfg) 0.
Proof.
  intros [Hh Hm] Hpos Hmid.
  pose proof (now_splits now) as Hnow. rewrite Hmid in Hnow.
  pose proof (target_offset cfg now) as Htgt.
  rewrite evaluate_counting by lia. cbn [isCompleted diffText].
  split; [reflexivity | ].
  replace (target cfg now - now) with (offsetOf cfg) by lia.
  rewrite formatDiff_text.
  set (t := hours cfg * 3600 + minutes cfg * 60).
  assert (Hw : wholeSeconds (offsetOf cfg) = t).
  { unfold wholeSeconds, offsetOf, msPerHour, msPerMinute.
    replace (hours cfg * 3600000 + minutes cfg * 60000) with (t * 1000)
      by (unfold t; lia).
    rewrite Z.div_mul by lia. unfold t. lia. }
  destruct (fields_of_wholeSeconds (offsetOf cfg)) as (-> & -> & ->).
  rewrite Hw. rewrite (Z.mod_small t 86400) by (unfold t; lia).
  assert (Hq : t / 3600 = hours cfg).
  { symmetry. apply Z.div_unique with (r := minutes cfg * 60); unfold t; lia. }
  assert (Hr : t mod 3600 = minutes cfg * 60).
  { symmetry. apply Z.mod_unique with (q := hours cfg); unfold t; lia. }
  rewrite Hq, Hr, Z.div_mul, Z.mod_mul by lia. reflexivity.
Qed.

(** X5.  Two degenerate configurations: a time of day at or before
    midnight, the valid 00:00 among them, is completed at every instant, so
    its countdown never runs; one of 24 hours or more is never completed. *)
Theorem degenerate_configurations (cfg : TimeCfg) :
  (offsetOf cfg <= 0 ->
   forall now, isCompleted (evaluate fmt cfg now) = true /\
               diffText (evaluate fmt cfg now) = "00:00:00") /\
  (msPerDay <= offsetOf cfg ->
   forall now, isCompleted (evaluate fmt cfg now) = false).
Proof.
  split.
  - intros Hoff now.
    assert (Hge : now >= target cfg now).
    { pose proof (now_splits now). pose proof (target_offset cfg now).
      pose proof (Z.mod_pos_bound now msPerDay ltac:(unfold msPerDay; lia)).
      unfold TimeWithinDay in *. lia. }
    rewrite evaluate_completed by exact Hge. split; reflexivity.
  - intros Hoff now. rewrite completed_by_time_of_day.
    apply geb_false_iff.
    pose proof (Z.mod_pos_bound now msPerDay ltac:(unfold msPerDay; lia)).
    unfold TimeWithinDay. lia.
Qed.

(** X6.  While the target of the day is ahead, the countdown loses one
    second per second: its text reads back as the whole seconds that remain,
    and [k] seconds later as [k] seconds less. *)
Theorem countdown_loses_one_second_per_second (cfg : TimeCfg) (now k : Z) :
  0 <= k ->
  Day (target cfg now) = Day now ->
  now + 1000 * k < target cfg now ->
  secondsOfText (diffText (evaluate fmt cfg now)) =
    Some ((target cfg now - now) / 1000) /\
  secondsOfText (diffText (evaluate fmt cfg (now + 1000 * k))) =
    Some ((target cfg now - now) / 1000 - k).
Proof.
  intros Hk Hday Hlt.
  assert (Hday' : Day (now + 1000 * k) = Day now).
  { apply (Day_between now (now + 1000 * k) (target cfg now)); [lia | ].
    exact Hday. }
  pose proof (target_of_same_day cfg now _ Hday') as Htgt.
  pose proof (same_day_within now (target cfg now) Hday ltac:(lia)) as Hw.
  rewrite !evaluate_counting by lia. cbn [diffText]. rewrite Htgt.
  rewrite !secondsOfText_within_day by lia.
  split; [reflexivity | ].
  replace (target cfg now - (now + 1000 * k))
    with (target cfg now - now + (- k) * 1000) by lia.
  rewrite Z.div_add by lia. reflexivity.
Qed.

(** X7.  With the clock at whole seconds, as [nowInTZ] delivers it, and
    the target on the date of [now], the text is 00:00:00 exactly when the
    countdown is completed: a running countdown shows at least one
    second. *)
Theorem zero_text_iff_completed (cfg : TimeCfg) (now : Z) :
  now mod 1000 = 0 ->
  Day (target cfg now) = Day now ->
  (diffText (evaluate fmt cfg now) = "00:00:00" <->
   isCompleted (evaluate fmt cfg now) = true).
Proof.
  intros Hsec Hday.
  destruct (Z_lt_ge_dec now (target cfg now)) as [Hlt | Hge].
  - rewrite evaluate_counting by exact Hlt. cbn [diffText isCompleted].
    split; [ | discriminate]. intros Hzero. exfalso.
    pose proof (same_day_within now (target cfg now) Hday Hlt) as Hw.
    pose proof (secondsOfText_within_day (target cfg now - now)
                  ltac:(lia)) as Hread.
    rewrite Hzero in Hread.
    change (secondsOfText "00:00:00") with (Some 0) in Hread.
    injection Hread as Hread.
    pose proof (Z.div_mod now 1000 ltac:(lia)) as Hnow.
    rewrite Hsec in Hnow.
    set (q := Day now * 86400 + hours cfg * 3600 + minutes cfg * 60
              - now / 1000).
    assert (Hrem : target cfg now - now = q * 1000).
    { unfold q, target, msPerDay, msPerHour, msPerMinute. lia. }
    rewrite Hrem, Z.div_mul in Hread by lia. lia.
  - rewrite evaluate_completed by exact Hge. cbn [diffText isCompleted].
    split; reflexivity.
Qed.

End CountdownMore.

Lemma completion_witness :
  let cfg := mkTimeCfg 16 0 "Waktunya pulang" in
  57600000 <= 61200000 /\ Day 61200000 = Day 57600000 /\
  isCompleted (evaluate noText cfg 57600000) = true /\
  isCompleted (evaluate noText cfg 61200000) = true.
Proof.
  intros cfg.
  assert (H1 : 57600000 <= 61200000) by lia.
  assert (H2 : Day 61200000 = Day 57600000) by reflexivity.
  assert (H3 : isCompleted (evaluate noText cfg 57600000) = true)
    by reflexivity.
  split; [exact H1 | split; [exact H2 | split; [exact H3 | ]]].
  exact (proj2 (completion_follows_time_of_day noText cfg 57600000)
           61200000 H1 H2 H3).
Defined.


Lemma midnight_witness :
  let cfg := mkTimeCfg 11 30 "Waktunya istirahat" in
  valid cfg /\ 0 < offsetOf cfg /\ TimeWithinDay 86400000 = 0 /\
  diffText (evaluate noText cfg 86400000) = "11:30:00".
Proof.
  intros cfg.
  assert (Hv : valid cfg) by (unfold valid; cbn; lia).
  assert (Hp : 0 < offsetOf cfg) by reflexivity.
  assert (Hm : TimeWithinDay 86400000 = 0) by reflexivity.
  split; [exact Hv | split; [exact Hp | split; [exact Hm | ]]].
  exact (proj2 (countdown_restarts_at_midnight noText cfg 86400000 Hv Hp Hm)).
Defined.

Lemma degenerate_witness :
  offsetOf (mkTimeCfg 0 0 "Waktunya pulang") <= 0 /\
  isCompleted (evaluate noText (mkTimeCfg 0 0 "Waktunya pulang") 1000) = true /\
  msPerDay <= offsetOf (mkTimeCfg 24 0 "Waktunya pulang") /\
  isCompleted (evaluate noText (mkTimeCfg 24 0 "Waktunya pulang") 86399000)
    = false.
Proof.
  assert (H0 : offsetOf (mkTimeCfg 0 0 "Waktunya pulang") <= 0)
    by (vm_compute; discriminate).
  assert (H24 : msPerDay <= offsetOf (mkTimeCfg 24 0 "Waktunya pulang"))
    by (vm_compute; discriminate).
  split; [exact H0 | ].
  split; [exact (proj1 (proj1 (degenerate_configurations noText _) H0 1000)) | ].
  split; [exact H24 | ].
  exact (proj2 (degenerate_configurations noText _) H24 86399000).
Defined.

Lemma one_second_witness :
  let cfg := mkTimeCfg 16 0 "Waktunya pulang" in
  0 <= 60 /\ Day (target cfg 57000000) = Day 57000000 /\
  57000000 + 1000 * 60 < target cfg 57000000 /\
  secondsOfText (diffText (evaluate noText cfg 57000000)) = Some 600 /\
  secondsOfText (diffText (evaluate noText cfg (57000000 + 1000 * 60))) =
    Some (600 - 60).
Proof.
  intros cfg.
  assert (Hk : 0 <= 60) by lia.
  assert (Hd : Day (target cfg 57000000) = Day 57000000) by reflexivity.
  assert (Hl : 57000000 + 1000 * 60 < target cfg 57000000) by reflexivity.
  split; [exact Hk | split; [exact Hd | split; [exact Hl | ]]].
  exact (countdown_loses_one_second_per_second noText cfg 57000000 60
           Hk Hd Hl).
Defined.

Lemma zero_text_witness :
  let cfg := mkTimeCfg 16 0 "Waktunya pulang" in
  57600000 mod 1000 = 0 /\ Day (target cfg 57600000) = Day 57600000 /\
  isCompleted (evaluate noText cfg 57600000) = true.
Proof.
  intros cfg.
  assert (Hs : 57600000 mod 1000 = 0) by reflexivity.
  assert (Hd : Day (target cfg 57600000) = Day 57600000) by reflexivity.
  split; [exact Hs | split; [exact Hd | ]].
  exact (proj1 (zero_text_iff_completed noText cfg 57600000 Hs Hd) eq_refl).
Defined.

(** ** More about the progress bar *)

(** X8.  With the target after the anchor the progress is linear between
    them, 100 times the elapsed part of the span over the span, and over
    all instants it never decreases as the clock advances. *)
Theorem progress_grows_linearly (tgt : Z) (c : Clock) (k : nat) :
  anchor tgt < tgt ->
  (anchor tgt <= c k <= tgt ->
   (fst (progressToTarget tgt 8 c k) ==
    inject_Z (100 * (c k - anchor tgt)) / inject_Z (tgt - anchor tgt))%Q) /\
  (forall (c' : Clock) (k' : nat),
      c k <= c' k' ->
      (fst (progressToTarget tgt 8 c k) <=
       fst (progressToTarget tgt 8 c' k'))%Q).
Proof.
  intros Hspan. split.
  - intros [Hlo Hhi]. rewrite progressToTarget_value, dayStartOf_anchor.
    rewrite orElse_keeps by lia.
    replace (Z.max 0 (Z.min (tgt - c k) (tgt - anchor tgt)))
      with (tgt - c k) by lia.
    replace (tgt - anchor tgt - (tgt - c k)) with (c k - anchor tgt) by lia.
    apply clamp_id. split.
    + apply Qle_shift_div_l.
      * change 0%Q with (inject_Z 0). rewrite <- Zlt_Qlt. lia.
      * rewrite Qmult_0_l. change 0%Q with (inject_Z 0).
        rewrite <- Zle_Qle. lia.
    + apply Qle_shift_div_r.
      * change 0%Q with (inject_Z 0). rewrite <- Zlt_Qlt. lia.
      * change 100%Q with (inject_Z 100). rewrite <- inject_Z_mult.
        rewrite <- Zle_Qle. lia.
  - intros c' k' Hle. rewrite !progressToTarget_value, !dayStartOf_anchor.
    rewrite orElse_keeps by lia.
    apply clamp_mono, quotient_mono; lia.
Qed.

Lemma progress_linear_witness :
  anchor 57600000 < 57600000 /\
  anchor 57600000 <= frozen 36000000 O <= 57600000 /\
  (fst (progressToTarget 57600000 8 (frozen 36000000) O) == 25)%Q /\
  (fst (progressToTarget 57600000 8 (frozen 36000000) O) <=
   fst (progressToTarget 57600000 8 (frozen 43200000) O))%Q.
Proof.
  assert (Hs : anchor 57600000 < 57600000) by reflexivity.
  assert (Hw : anchor 57600000 <= frozen 36000000 O <= 57600000)
    by (vm_compute; split; discriminate).
  destruct (progress_grows_linearly 57600000 (frozen 36000000) O Hs)
    as [Hlin Hmono].
  split; [exact Hs | split; [exact Hw | split]].
  - rewrite (Hlin Hw). vm_compute. reflexivity.
  - apply (Hmono (frozen 43200000) O). vm_compute. discriminate.
Defined.

(** X9.  Once the target has passed, the formula of [progressToTarget]
    gives 100 by itself whenever the target is not exactly at the anchor,
    and 0 when it is; so the 100 that [tick] forces on a completed countdown
    changes the value only for a target of 08:00:00. *)
Theorem forced_progress_agrees_with_formula (tgt : Z) (c : Clock) (k : nat) :
  tgt <= c k ->
  (tgt <> anchor tgt -> (fst (progressToTarget tgt 8 c k) == 100)%Q) /\
  (tgt = anchor tgt -> (fst (progressToTarget tgt 8 c k) == 0)%Q).
Proof.
  intros Hpast. split.
  - intros Hne. rewrite progressToTarget_value, dayStartOf_anchor.
    rewrite orElse_keeps by lia.
    replace (Z.max 0 (Z.min (tgt - c k) (tgt - anchor tgt))) with 0 by lia.
    rewrite Z.sub_0_r. rewrite quotient_full by lia.
    apply clamp_id. split; discriminate.
  - intros Heq. apply progressToTarget_span_zero.
    rewrite dayStartOf_anchor. lia.
Qed.

Lemma forced_progress_witness :
  57600000 <= frozen 61200000 O /\ 57600000 <> anchor 57600000 /\
  (fst (progressToTarget 57600000 8 (frozen 61200000) O) == 100)%Q /\
  28800000 <= frozen 30000000 O /\ 28800000 = anchor 28800000 /\
  (fst (progressToTarget 28800000 8 (frozen 30000000) O) == 0)%Q /\
  progress (evaluate noText (mkTimeCfg 8 0 "Waktunya pulang") 30000000) =
    100%Q.
Proof.
  assert (H1 : 57600000 <= frozen 61200000 O) by (vm_compute; discriminate).
  assert (H2 : 57600000 <> anchor 57600000) by (vm_compute; discriminate).
  assert (H3 : 28800000 <= frozen 30000000 O) by (vm_compute; discriminate).
  assert (H4 : 28800000 = anchor 28800000) by reflexivity.
  split; [exact H1 | split; [exact H2 | ]].
  split; [exact (proj1 (forced_progress_agrees_with_formula _ _ _ H1) H2) | ].
  split; [exact H3 | split; [exact H4 | ]].
  split; [exact (proj2 (forced_progress_agrees_with_formula _ _ _ H3) H4) | ].
  reflexivity.
Defined.

(** X10.  The start of the progress bar does not depend on the clock: in
    both branches of [progressToTarget] it is [startHour]:00 on the calendar
    date of the target, so the branch for a target on another date than the
    clock's changes nothing. *)
Theorem dayStart_ignores_clock (witaNow witaNow' tgt startHour : Z) :
  dayStartOf witaNow tgt startHour = setHours tgt startHour 0 0 0 /\
  dayStartOf witaNow tgt startHour = dayStartOf witaNow' tgt startHour /\
  Day (dayStartOf witaNow tgt 8) = Day tgt.
Proof.
  rewrite !dayStartOf_target_date.
  split; [ | split; [reflexivity | ]].
  - unfold setHours, MakeDate, MakeTime. lia.
  - apply Day_MakeDate. unfold msPerHour, msPerDay. lia.
Qed.

Section CardFacts.

Variable fmt : Z -> string.

(** X11.  On a snapshot that [tick] has produced, for any clock, the width
    of the bar of a card is the progress of the snapshot, a percentage in
    [0,100]; the completed look of the card, with its full green bar and the
    text 00:00:00, is on exactly when the instant of the tick has reached
    the target. *)
Theorem card_shows_the_snapshot (cfg : TimeCfg) (stored : CountdownState)
  (c : Clock) (k : nat) (title bdg : string) (accent : Accent) :
  let st := fst (tick fmt cfg stored c k) in
  let card := Card title bdg st accent in
  barWidth card = progress st /\
  (0 <= barWidth card <= 100)%Q /\
  countdownText card = diffText st /\
  (greenText card = true <-> c k >= target cfg (c k)) /\
  (greenText card = true ->
   barWidth card = 100%Q /\ barStyle card = GreenPulse /\
   countdownText card = "00:00:00" /\ confetti card = true /\
   heading card = title ++ " — Selesai 🎉").
Proof.
  intros st card. subst card st.
  pose proof (tick_progress_range fmt cfg stored c k) as Hrange.
  destruct (Z_lt_ge_dec (c k) (target cfg (c k))) as [Hlt | Hge].
  - rewrite tick_counting in * by assumption. cbn [fst] in *.
    unfold Card. cbn [isCompleted progress diffText barWidth countdownText
      greenText] in *.
    split; [reflexivity | ]. split; [exact Hrange | ].
    split; [reflexivity | ].
    split; [split; [discriminate | lia] | discriminate].
  - rewrite tick_completed in * by assumption. cbn [fst] in *.
    unfold Card. cbn [isCompleted progress diffText barWidth countdownText
      greenText barStyle confetti heading] in *.
    split; [reflexivity | ]. split; [exact Hrange | ].
    split; [reflexivity | ].
    split; [split; [intros _; exact Hge | reflexivity] | ].
    intros _. repeat split.
Qed.

End CardFacts.

Lemma card_witness :
  let st := fst (tick noText DEFAULT_HOME blank (frozen 61200000) O) in
  let card := Card "Menuju Pulang" "16:00 WITA" st emerald in
  greenText card = true /\ barWidth card = 100%Q /\
  countdownText card = "00:00:00".
Proof.
  intros st card.
  destruct (card_shows_the_snapshot noText DEFAULT_HOME blank
              (frozen 61200000) O "Menuju Pulang" "16:00 WITA" emerald)
    as (_ & _ & _ & _ & Hdone).
  assert (Hg : greenText card = true) by reflexivity.
  destruct (Hdone Hg) as (Hw & _ & Ht & _).
  split; [exact Hg | split; [exact Hw | exact Ht]].
Defined.

(** ** More about the component *)

Section ComponentMore.

Variables fmt fmtHeader : Z -> string.

Lemma TimerWITA_v1_frozen (restAt homeAt : TimeCfg) (now : Z) :
  let r := run (TimerWITA_v1 fmt fmtHeader restAt homeAt) (frozen now) in
  istirahat_v1 r = evaluate fmt restAt now /\
  pulang_v1 r = evaluate fmt homeAt now /\
  headerClock_v1 r = fmtHeader now /\
  cards_v1 r =
    [Card "Menuju Istirahat" "11:30 WITA" (evaluate fmt restAt now) amber;
     Card "Menuju Pulang" "16:00 WITA" (evaluate fmt homeAt now) emerald].
Proof.
  intros r. subst r. unfold run, TimerWITA_v1, bind.
  pose proof (useCountdown_frozen fmt restAt now O) as H1.
  destruct (useCountdown fmt restAt (frozen now) O) as [i k1].
  cbn [fst] in H1. subst i.
  pose proof (useCountdown_frozen fmt homeAt now k1) as H2.
  destruct (useCountdown fmt homeAt (frozen now) k1) as [p k2].
  cbn [fst] in H2. subst p.
  destruct (evaluate_now_target fmt restAt now) as [Hnow _].
  cbn [ret fst istirahat_v1 pulang_v1 headerClock_v1 cards_v1].
  rewrite Hnow. repeat split; reflexivity.
Qed.

(** X12.  From Monday to Friday the component uses the configuration as
    it is: the home countdown runs on the configured time of day, the header
    has no Sunday badge, and the two cards show the two snapshots under the
    badges of the configured times. *)
Theorem weekday_uses_configuration (restAt homeAt : TimeCfg) (now : Z) :
  getDay now <> 0 ->
  getDay now <> 6 ->
  let r := run (TimerWITA fmt fmtHeader restAt homeAt) (frozen now) in
  effectiveHome r = homeAt /\
  istirahat r = evaluate fmt restAt now /\
  pulang r = evaluate fmt homeAt now /\
  sundayBadge r = false /\
  cards r =
    [Card "Menuju Istirahat"
       (formatBadgeTime (hours restAt) (minutes restAt))
       (evaluate fmt restAt now) amber;
     Card "Menuju Pulang"
       (formatBadgeTime (hours homeAt) (minutes homeAt))
       (evaluate fmt homeAt now) emerald].
Proof.
  intros Hsun Hsat r.
  destruct (TimerWITA_frozen fmt fmtHeader restAt homeAt now)
    as (Hi & He & Hp & Hb & _ & Hc).
  fold r in Hi, He, Hp, Hb, Hc.
  apply Z.eqb_neq in Hsun, Hsat. rewrite Hsat in He, Hp, Hc.
  rewrite Hsun in Hb, Hc. auto.
Qed.

(** X13.  The two versions of the component: the rest snapshot is the same
    on every day; from Monday to Friday the home snapshot is the same too
    and the cards differ in their badges at most; and the badges of the
    earlier version are 11:30 WITA and 16:00 WITA whatever times are
    configured. *)
Theorem versions_agree_on_weekdays (restAt homeAt : TimeCfg) (now : Z) :
  let r := run (TimerWITA fmt fmtHeader restAt homeAt) (frozen now) in
  let r1 := run (TimerWITA_v1 fmt fmtHeader restAt homeAt) (frozen now) in
  istirahat r = istirahat_v1 r1 /\
  headerClock r = headerClock_v1 r1 /\
  map badge (cards_v1 r1) = ["11:30 WITA"; "16:00 WITA"] /\
  (getDay now <> 0 -> getDay now <> 6 ->
   pulang r = pulang_v1 r1 /\
   Forall2 sameButBadge (cards r) (cards_v1 r1)).
Proof.
  intros r r1.
  destruct (TimerWITA_frozen fmt fmtHeader restAt homeAt now)
    as (Hi & _ & _ & _ & Hh & _).
  destruct (TimerWITA_v1_frozen restAt homeAt now) as (Hi1 & Hp1 & Hh1 & Hc1).
  fold r in Hi, Hh. fold r1 in Hi1, Hp1, Hh1, Hc1.
  split; [rewrite Hi, Hi1; reflexivity | ].
  split; [rewrite Hh, Hh1; reflexivity | ].
  split; [rewrite Hc1; reflexivity | ].
  intros Hsun Hsat.
  destruct (TimerWITA_frozen fmt fmtHeader restAt homeAt now)
    as (_ & _ & Hp & _ & _ & Hc).
  fold r in Hp, Hc.
  apply Z.eqb_neq in Hsun, Hsat. rewrite Hsat in Hp, Hc. rewrite Hsun in Hc.
  split; [rewrite Hp, Hp1; reflexivity | ].
  rewrite Hc, Hc1.
  repeat constructor.
Qed.

End ComponentMore.

Lemma weekday_witness :
  let now := 345600000 + 36000000 in
  let r := run (TimerWITA noText noText DEFAULT_REST DEFAULT_HOME)
             (frozen now) in
  getDay now <> 0 /\ getDay now <> 6 /\
  effectiveHome r = DEFAULT_HOME /\
  map badge (cards r) = ["11:30 WITA"; "16:00 WITA"].
Proof.
  intros now r.
  assert (H0 : getDay now <> 0) by (vm_compute; discriminate).
  assert (H6 : getDay now <> 6) by (vm_compute; discriminate).
  destruct (weekday_uses_configuration noText noText DEFAULT_REST DEFAULT_HOME
              now H0 H6) as (He & _ & _ & _ & Hc).
  split; [exact H0 | split; [exact H6 | split; [exact He | ]]].
  exact (f_equal (map badge) Hc).
Defined.

Lemma versions_witness :
  let now := 345600000 + 36000000 in
  let homeAt := mkTimeCfg 17 30 "Waktunya pulang" in
  let r := run (TimerWITA noText noText DEFAULT_REST homeAt) (frozen now) in
  let r1 := run (TimerWITA_v1 noText noText DEFAULT_REST homeAt)
              (frozen now) in
  getDay now <> 0 /\ getDay now <> 6 /\
  pulang r = pulang_v1 r1 /\
  map badge (cards r) = ["11:30 WITA"; "17:30 WITA"] /\
  map badge (cards_v1 r1) = ["11:30 WITA"; "16:00 WITA"].
Proof.
  intros now homeAt r r1.
  assert (H0 : getDay now <> 0) by (vm_compute; discriminate).
  assert (H6 : getDay now <> 6) by (vm_compute; discriminate).
  destruct (versions_agree_on_weekdays noText noText DEFAULT_REST homeAt now)
    as (_ & _ & Hb1 & Hweek).
  split; [exact H0 | split; [exact H6 | ]].
  split; [exact (proj1 (Hweek H0 H6)) | ].
  split; [reflexivity | exact Hb1].
Defined.

(** X14.  At one instant the initialiser of the hook and its [tick] build
    the same instant, target, text, progress and completed flag, and the
    same status text while the countdown runs; for a completed countdown
    the status of the initialiser is the label followed by selesai, and
    [tick] appends the remark that counting starts again after 00:00. *)
Theorem initialiser_agrees_with_tick (fmt : Z -> string) (cfg : TimeCfg)
  (now : Z) :
  let i := run (initState fmt cfg) (frozen now) in
  let t := run (tick fmt cfg i) (frozen now) in
  nowWita i = nowWita t /\
  targetToday i = targetToday t /\
  diffText i = diffText t /\
  progress i = progress t /\
  isCompleted i = isCompleted t /\
  (isCompleted t = false -> status i = status t) /\
  (isCompleted t = true ->
   status i = label cfg ++ " selesai 🎉" /\
   status t = label cfg ++ " selesai 🎉 · hitung ulang setelah 00:00 WITA").
Proof.
  intros i t.
  assert (Ht : t = evaluate fmt cfg now).
  { subst t. unfold run. apply tick_evaluate; reflexivity. }
  rewrite Ht. apply initState_agrees_with_tick.
Qed.

Lemma initState_agreement_witness :
  let i := run (initState noText DEFAULT_HOME) (frozen 61200000) in
  let t := evaluate noText DEFAULT_HOME 61200000 in
  isCompleted t = true /\
  status i = "Waktunya pulang selesai 🎉" /\
  status t = "Waktunya pulang selesai 🎉 · hitung ulang setelah 00:00 WITA" /\
  isCompleted (evaluate noText DEFAULT_HOME 36000000) = false /\
  status (run (initState noText DEFAULT_HOME) (frozen 36000000)) =
  status (evaluate noText DEFAULT_HOME 36000000).
Proof.
  intros i t.
  destruct (initialiser_agrees_with_tick noText DEFAULT_HOME 61200000)
    as (_ & _ & _ & _ & _ & _ & Hdone).
  destruct (initialiser_agrees_with_tick noText DEFAULT_HOME 36000000)
    as (_ & _ & _ & _ & _ & Hrun & _).
  assert (Hc : isCompleted t = true) by reflexivity.
  assert (Hn : isCompleted (evaluate noText DEFAULT_HOME 36000000) = false)
    by reflexivity.
  destruct (Hdone Hc) as [Hi Ht].
  split; [exact Hc | split; [exact Hi | split; [exact Ht | ]]].
  split; [exact Hn | exact (Hrun Hn)].
Defined.

(** ** More about the configuration boundary *)

Lemma append_assoc (a b c : string) : (a ++ b) ++ c = a ++ (b ++ c).
Proof.
  induction a as [ | x a IH]; cbn; [reflexivity | now rewrite IH].
Qed.

Lemma hasChar_app (c : ascii) (a b : string) :
  hasChar c (a ++ b) = hasChar c a || hasChar c b.
Proof.
  induction a as [ | x a IH]; cbn; [reflexivity | ].
  rewrite IH. apply orb_assoc.
Qed.

Lemma splitAux_no_sep (sep : ascii) (s cur : string) :
  hasChar sep s = false -> splitAux sep s cur = [cur ++ s].
Proof.
  revert cur. induction s as [ | x s IH]; intros cur Hno; cbn.
  - f_equal. induction cur as [ | y cur IHc]; cbn; [reflexivity | ].
    now rewrite <- IHc.
  - cbn in Hno. apply orb_false_iff in Hno as [Hx Hs].
    rewrite Hx, (IH _ Hs), append_assoc. reflexivity.
Qed.

Lemma digitChar_of_digitValue (a : ascii) :
  isDigit a = true -> digitChar (digitValue a) = a.
Proof.
  intros Ha. apply isDigit_cases in Ha. cbn in Ha.
  repeat (destruct Ha as [<- | Ha]; [reflexivity | ]).
  contradiction.
Qed.

Lemma twoDigits_of_digits (a b : ascii) :
  isDigit a = true -> isDigit b = true ->
  twoDigits (10 * digitValue a + digitValue b) =
  String a (String b EmptyString).
Proof.
  intros Ha Hb.
  pose proof (digitValue_range a Ha) as Ra.
  pose proof (digitValue_range b Hb) as Rb.
  unfold twoDigits.
  replace ((10 * digitValue a + digitValue b) / 10) with (digitValue a)
    by (apply Z.div_unique with (r := digitValue b); lia).
  replace ((10 * digitValue a + digitValue b) mod 10) with (digitValue b)
    by (apply Z.mod_unique with (q := digitValue a); lia).
  rewrite !digitChar_of_digitValue by assumption. reflexivity.
Qed.

Lemma formatBadgeTime_twoDigits (h m : Z) :
  0 <= h < 100 -> 0 <= m < 100 ->
  formatBadgeTime h m = (twoDigits h ++ ":" ++ twoDigits m) ++ " WITA".
Proof.
  intros Hh Hm. unfold formatBadgeTime.
  rewrite !padStart_twoDigits by assumption.
  rewrite !append_assoc. reflexivity.
Qed.

(** X15.  A valid time of day written as two digits, a colon and two
    digits is the text of its badge, passes [isValidTimeStr] and is read
    back by [parseTimeToCfg] as the same time of day. *)
Theorem time_text_round_trip (cfg : TimeCfg) :
  valid cfg ->
  let t := twoDigits (hours cfg) ++ ":" ++ twoDigits (minutes cfg) in
  formatBadgeTime (hours cfg) (minutes cfg) = t ++ " WITA" /\
  isValidTimeStr (JStr t) = true /\
  parseTimeToCfg (JStr t) (label cfg) = Some cfg.
Proof.
  intros [Hh Hm] t.
  split; [apply formatBadgeTime_twoDigits; lia | ].
  destruct (twoDigits_digits (hours cfg) ltac:(lia))
    as (a & b & Eh & Ha & Hb & Vh).
  destruct (twoDigits_digits (minutes cfg) ltac:(lia))
    as (c & d & Em & Hc & Hd & Vm).
  subst t. rewrite Eh, Em. cbn [append].
  split.
  - unfold isValidTimeStr. cbn [ToString matchesHHMM].
    rewrite Ha, Hb, Hc, Hd. reflexivity.
  - rewrite parseTimeToCfg_HHMM by assumption. rewrite Vh, Vm.
    destruct cfg as [h m l]. cbn [hours minutes label] in *.
    do 2 f_equal; lia.
Qed.

Lemma time_text_witness :
  let cfg := mkTimeCfg 7 5 "Waktunya pulang" in
  valid cfg /\
  formatBadgeTime 7 5 = "07:05 WITA" /\
  parseTimeToCfg (JStr "07:05") "Waktunya pulang" = Some cfg.
Proof.
  intros cfg.
  assert (Hv : valid cfg) by (unfold valid; cbn; lia).
  destruct (time_text_round_trip cfg Hv) as (Hb & _ & Hp).
  split; [exact Hv | split; [exact Hb | exact Hp]].
Defined.

(** X16.  For a text that matches the pattern, the badge of the time of
    day that [parseTimeToCfg] builds shows the two numbers cut at 23 and 59;
    it shows the text itself when the hours are at most 23 and the minutes
    at most 59. *)
Theorem badge_of_parsed_text (a b c d : ascii) (lbl : string) (cfg : TimeCfg) :
  isDigit a = true -> isDigit b = true ->
  isDigit c = true -> isDigit d = true ->
  let t := String a (String b (String ":"
             (String c (String d EmptyString)))) in
  let h := 10 * digitValue a + digitValue b in
  let m := 10 * digitValue c + digitValue d in
  parseTimeToCfg (JStr t) lbl = Some cfg ->
  formatBadgeTime (hours cfg) (minutes cfg) =
    (twoDigits (Z.min 23 h) ++ ":" ++ twoDigits (Z.min 59 m)) ++ " WITA" /\
  (h <= 23 -> m <= 59 ->
   formatBadgeTime (hours cfg) (minutes cfg) = t ++ " WITA").
Proof.
  intros Ha Hb Hc Hd t h m Hparse.
  pose proof (digitValue_range a Ha). pose proof (digitValue_range b Hb).
  pose proof (digitValue_range c Hc). pose proof (digitValue_range d Hd).
  pose proof (parseTimeToCfg_HHMM a b c d lbl Ha Hb Hc Hd) as Hp.
  subst t. rewrite Hparse in Hp.
  assert (Eh : hours cfg = Z.min 23 h) by (injection Hp as ->; reflexivity).
  assert (Em : minutes cfg = Z.min 59 m) by (injection Hp as ->; reflexivity).
  rewrite Eh, Em. subst h m.
  split; [apply formatBadgeTime_twoDigits; lia | ].
  intros Hh Hm. rewrite formatBadgeTime_twoDigits by lia.
  rewrite !Z.min_r by lia.
  rewrite !twoDigits_of_digits by assumption. reflexivity.
Qed.

Lemma badge_of_parsed_witness :
  parseTimeToCfg (JStr "99:07") "Waktunya pulang" =
    Some (mkTimeCfg 23 7 "Waktunya pulang") /\
  formatBadgeTime 23 7 = "23:07 WITA" /\
  parseTimeToCfg (JStr "09:45") "Waktunya pulang" =
    Some (mkTimeCfg 9 45 "Waktunya pulang") /\
  formatBadgeTime 9 45 = "09:45 WITA".
Proof.
  assert (P1 : parseTimeToCfg (JStr "99:07") "Waktunya pulang" =
               Some (mkTimeCfg 23 7 "Waktunya pulang")) by reflexivity.
  assert (P2 : parseTimeToCfg (JStr "09:45") "Waktunya pulang" =
               Some (mkTimeCfg 9 45 "Waktunya pulang")) by reflexivity.
  split; [exact P1 | ].
  split.
  { exact (proj1 (badge_of_parsed_text "9" "9" "0" "7" _ _
                    eq_refl eq_refl eq_refl eq_refl P1)). }
  split; [exact P2 | ].
  refine (proj2 (badge_of_parsed_text "0" "9" "4" "5" _ _
                   eq_refl eq_refl eq_refl eq_refl P2) _ _);
    vm_compute; discriminate.
Defined.

(** X17.  [parseTimeToCfg] never fails on a text: whatever the text, it
    builds a time of day in range that carries the given label.  A text
    without a colon gives zero minutes and, for the hours, the integer at
    its start, after any white space, cut to 0..23 (zero when there is
    none, as for the empty text, and when the digits run beyond the range
    of a number). *)
Theorem parseTimeToCfg_on_any_text (s lbl : string) :
  exists cfg : TimeCfg,
    parseTimeToCfg (JStr s) lbl = Some cfg /\
    valid cfg /\ label cfg = lbl /\
    (hasChar ":" s = false ->
     minutes cfg = 0 /\ hours cfg = clampOr0 23 (parseInt10 s)).
Proof.
  eexists. split; [reflexivity | ].
  split; [unfold valid; cbn [hours minutes];
          split; apply clampOr0_range; lia | ].
  split; [reflexivity | ].
  intros Hno. cbn [hours minutes]. unfold split.
  rewrite (splitAux_no_sep _ _ _ Hno). cbn [append map nth].
  split; reflexivity.
Qed.

Lemma parseTimeToCfg_any_text_witness :
  let nbsp12 := String (ascii_of_nat 194) (String (ascii_of_nat 160) "12") in
  let huge := String_of (10 ^ 309) in
  hasChar ":" "" = false /\ hasChar ":" " 7pm" = false /\
  hasChar ":" nbsp12 = false /\ hasChar ":" huge = false /\
  parseTimeToCfg (JStr "") "Waktunya pulang" =
    Some (mkTimeCfg 0 0 "Waktunya pulang") /\
  parseTimeToCfg (JStr " 7pm") "Waktunya pulang" =
    Some (mkTimeCfg 7 0 "Waktunya pulang") /\
  parseTimeToCfg (JStr nbsp12) "Waktunya pulang" =
    Some (mkTimeCfg 12 0 "Waktunya pulang") /\
  parseTimeToCfg (JStr huge) "Waktunya pulang" =
    Some (mkTimeCfg 0 0 "Waktunya pulang").
Proof.
  intros nbsp12 huge.
  destruct (parseTimeToCfg_on_any_text "" "Waktunya pulang")
    as (cfg0 & P0 & _ & L0 & E0).
  destruct (parseTimeToCfg_on_any_text " 7pm" "Waktunya pulang")
    as (cfg7 & P7 & _ & L7 & E7).
  destruct (parseTimeToCfg_on_any_text nbsp12 "Waktunya pulang")
    as (cfgN & PN & _ & LN & EN).
  destruct (parseTimeToCfg_on_any_text huge "Waktunya pulang")
    as (cfgH & PH & _ & LH & EH).
  assert (H0 : hasChar ":" "" = false) by reflexivity.
  assert (H7 : hasChar ":" " 7pm" = false) by reflexivity.
  assert (HN : hasChar ":" nbsp12 = false) by reflexivity.
  assert (HH : hasChar ":" huge = false) by (vm_compute; reflexivity).
  destruct (E0 H0) as [M0 Hr0]. destruct (E7 H7) as [M7 Hr7].
  destruct (EN HN) as [MN HrN]. destruct (EH HH) as [MH HrH].
  assert (V0 : clampOr0 23 (parseInt10 "") = 0) by reflexivity.
  assert (V7 : clampOr0 23 (parseInt10 " 7pm") = 7) by reflexivity.
  assert (VN : clampOr0 23 (parseInt10 nbsp12) = 12) by reflexivity.
  assert (VH : clampOr0 23 (parseInt10 huge) = 0) by (vm_compute; reflexivity).
  rewrite V0 in Hr0. rewrite V7 in Hr7. rewrite VN in HrN. rewrite VH in HrH.
  split; [exact H0 | split; [exact H7 | split; [exact HN | split;
    [exact HH | ]]]].
  destruct cfg0 as [h0 m0 l0], cfg7 as [h7 m7 l7], cfgN as [hN mN lN],
    cfgH as [hH mH lH].
  cbn [hours minutes label] in *. subst.
  split; [exact P0 | split; [exact P7 | split; [exact PN | exact PH]]].
Defined.

(** A digit run that is beyond the range of a double reads as an infinity,
    which [Number.isFinite] rejects, where one digit less reads as a
    number. *)
Example parseInt10_overflow :
  parseInt10 (String_of (10 ^ 309)) = None /\
  parseInt10 (String_of (10 ^ 308)) = Some (10 ^ 308) /\
  clampOr0 23 (parseInt10 (String_of (10 ^ 308))) = 23.
Proof. vm_compute. repeat split. Qed.

(** *** What passes [isValidTimeStr] *)

Lemma digit_not_comma (x : ascii) :
  isDigit x = true -> Ascii.eqb x "," = false.
Proof.
  intros Hx. destruct (Ascii.eqb x ",") eqn:E; [ | reflexivity].
  apply Ascii.eqb_eq in E. subst x. discriminate Hx.
Qed.

Lemma matchesHHMM_chars (s : string) :
  matchesHHMM s = true -> hasChar ":" s = true /\ hasChar "," s = false.
Proof.
  intros H. destruct (matchesHHMM_inv s H) as (a & b & c & d & -> & Ha & Hb
    & Hc & Hd).
  split.
  - cbn [hasChar]. rewrite Ascii.eqb_refl, !orb_true_r. reflexivity.
  - cbn [hasChar].
    rewrite (digit_not_comma a Ha), (digit_not_comma b Hb),
      (digit_not_comma c Hc), (digit_not_comma d Hd).
    reflexivity.
Qed.

Lemma uint_no_colon (d : Decimal.uint) :
  hasChar ":" (NilEmpty.string_of_uint d) = false.
Proof. induction d; cbn; [reflexivity | assumption ..]. Qed.

Lemma String_of_no_colon (n : Z) : hasChar ":" (String_of n) = false.
Proof.
  unfold String_of, NilZero.string_of_int, NilZero.string_of_uint.
  destruct (Z.to_int n) as [d | d].
  - destruct d; try reflexivity; apply (uint_no_colon (_ d)).
  - cbn [hasChar]. destruct d; try reflexivity; apply (uint_no_colon (_ d)).
Qed.

Lemma join_has_comma (x y : string) (rest : list string) :
  hasChar "," (join "," (x :: y :: rest)) = true.
Proof.
  cbn [join]. rewrite hasChar_app. cbn [append hasChar].
  rewrite Ascii.eqb_refl. apply orb_true_r.
Qed.

Lemma isValidTimeStr_singleton (item : JSValue) :
  isValidTimeStr (JArr [item]) = isValidTimeStr item.
Proof.
  unfold isValidTimeStr. cbn [ToString map allSome].
  destruct item as [ | | b | n | t | items | fields]; try reflexivity.
  - destruct b; reflexivity.
  - destruct (ToString (JArr items)); reflexivity.
  - destruct (ToString (JObj fields)); reflexivity.
Qed.

Lemma joined_texts_never_match (a b : option string)
    (l : list (option string)) :
  match option_map (join ",") (allSome (a :: b :: l)) with
  | Some s => matchesHHMM s
  | None => false
  end = false.
Proof.
  cbn [allSome].
  destruct a as [ta | ]; [ | reflexivity].
  destruct b as [tb | ]; [ | reflexivity].
  destruct (allSome l) as [ts | ]; [ | reflexivity].
  cbn [option_map].
  destruct (matchesHHMM (join "," (ta :: tb :: ts))) eqn:E; [ | reflexivity].
  apply matchesHHMM_chars in E as [_ E].
  rewrite join_has_comma in E. discriminate E.
Qed.

Lemma isValidTimeStr_longer (x y : JSValue) (items : list JSValue) :
  isValidTimeStr (JArr (x :: y :: items)) = false.
Proof.
  unfold isValidTimeStr. cbn [ToString map].
  apply joined_texts_never_match.
Qed.

(** X18.  [isValidTimeStr] coerces its argument to a text, so what passes
    it is a text that matches the pattern or an array of exactly one item
    that passes; [undefined], [null], booleans, numbers, objects and arrays of
    another length never pass. *)
Theorem isValidTimeStr_accepts (v : JSValue) :
  isValidTimeStr v = true <->
  (exists s, v = JStr s /\ matchesHHMM s = true) \/
  (exists item, v = JArr [item] /\ isValidTimeStr item = true).
Proof.
  split.
  - intros H. destruct v as [ | | b | n | s | items | fields].
    + discriminate H.
    + discriminate H.
    + destruct b; discriminate H.
    + exfalso. unfold isValidTimeStr in H. cbn [ToString] in H.
      apply matchesHHMM_chars in H as [H _].
      rewrite String_of_no_colon in H. discriminate H.
    + left. exists s. split; [reflexivity | exact H].
    + destruct items as [ | item [ | item' rest]].
      * discriminate H.
      * right. exists item. split; [reflexivity | ].
        rewrite <- isValidTimeStr_singleton. exact H.
      * rewrite isValidTimeStr_longer in H. discriminate H.
    + unfold isValidTimeStr in H. cbn [ToString] in H.
      destruct (lookup "toString" fields); discriminate H.
  - intros [(s & -> & H) | (item & -> & H)]; [exact H | ].
    rewrite isValidTimeStr_singleton. exact H.
Qed.

(** *** Sessions of the wrapper *)

Lemma textual_step (s : AppState) (e : Event) :
  textualEvent e = true ->
  isText (rest (userCfg s)) = true /\ isText (home (userCfg s)) = true ->
  isText (rest (userCfg (step s e))) = true /\
  isText (home (userCfg (step s e))) = true.
Proof.
  intros He Hs. rewrite step_userCfg. destruct e as [r | rv hv | | ].
  - unfold load. destruct r as [ | | | parsed]; cbn; try exact Hs;
      try (split; reflexivity).
    cbn [textualEvent] in He. apply andb_true_iff in He as [Hr Hh].
    unfold validated.
    destruct (getProp parsed "rest") as [rv | ]; [ | split; reflexivity].
    destruct (testThrows rv); [split; reflexivity | ].
    destruct (getProp parsed "home") as [hv | ]; [ | split; reflexivity].
    destruct (testThrows hv); [split; reflexivity | ].
    cbn [textField] in Hr, Hh. cbn.
    split.
    + destruct (isValidTimeStr rv); [ | reflexivity].
      rewrite orb_false_r in Hr. exact Hr.
    + destruct (isValidTimeStr hv); [ | reflexivity].
      rewrite orb_false_r in Hh. exact Hh.
  - cbn [textualEvent] in He. apply andb_true_iff in He as [Hr Hh].
    destruct (Modal_handleSave_cases rv hv s) as [-> | [-> | (_ & _ & ->)]];
      [exact Hs | exact Hs | split; assumption].
  - exact Hs.
  - exact Hs.
Qed.

Lemma textual_fold (es : list Event) (s : AppState) :
  forallb textualEvent es = true ->
  isText (rest (userCfg s)) = true /\ isText (home (userCfg s)) = true ->
  isText (rest (userCfg (fold_left step es s))) = true /\
  isText (home (userCfg (fold_left step es s))) = true.
Proof.
  revert s. induction es as [ | e es IH]; intros s Hes Hs; cbn.
  - exact Hs.
  - cbn in Hes. apply andb_true_iff in Hes as [He Hes].
    apply IH; [exact Hes | apply textual_step; assumption].
Qed.

(** X19.  In a session whose time fields are texts (the storage holds
    texts where it holds fields that pass, and the form of the modal holds
    texts) both fields of the configuration stay texts, the render never
    throws, and once the loading is over the wrapper hands two times of day
    in range to the timer. *)
Theorem textual_session_never_throws (es : list Event) :
  forallb textualEvent es = true ->
  let s := runEvents es in
  isText (rest (userCfg s)) = true /\
  isText (home (userCfg s)) = true /\
  WorkTimerApp s <> RenderThrows /\
  (loading s = false ->
   exists restAt homeAt : TimeCfg,
     WorkTimerApp s = Shown restAt homeAt (showModal s) /\
     valid restAt /\ valid homeAt).
Proof.
  intros Hes s.
  destruct (textual_fold es initial Hes (conj eq_refl eq_refl)) as [Hr Hh].
  fold (runEvents es) in Hr, Hh. fold s in Hr, Hh.
  destruct (rest (userCfg s)) as [ | | | | r | | ] eqn:Er; try discriminate Hr.
  destruct (home (userCfg s)) as [ | | | | h | | ] eqn:Eh; try discriminate Hh.
  destruct (parseTimeToCfg (JStr r) "Waktunya istirahat") as [ra | ] eqn:Pr;
    [ | discriminate Pr].
  destruct (parseTimeToCfg (JStr h) "Waktunya pulang") as [ha | ] eqn:Ph;
    [ | discriminate Ph].
  pose proof (parseTimeToCfg_valid _ _ _ Pr) as Vr.
  pose proof (parseTimeToCfg_valid _ _ _ Ph) as Vh.
  split; [reflexivity | ]. split; [reflexivity | ].
  unfold WorkTimerApp. rewrite Er, Eh, Pr, Ph.
  split.
  - destruct (loading s); discriminate.
  - intros ->. exists ra, ha. auto.
Qed.

Lemma textual_session_witness :
  let stored := JObj [("rest", JStr "12:00"); ("home", JNum 17)] in
  let es := [Mount (Parsed stored); UbahJam;
             Simpan (JStr "12:00") (JStr "17:15")] in
  forallb textualEvent es = true /\
  loading (runEvents es) = false /\
  WorkTimerApp (runEvents es) =
    Shown (mkTimeCfg 12 0 "Waktunya istirahat")
          (mkTimeCfg 17 15 "Waktunya pulang") false.
Proof.
  intros stored es.
  assert (Ht : forallb textualEvent es = true) by reflexivity.
  assert (Hl : loading (runEvents es) = false) by reflexivity.
  destruct (textual_session_never_throws es Ht) as (_ & _ & _ & Hshown).
  destruct (Hshown Hl) as (ra & ha & Hs & _).
  split; [exact Ht | split; [exact Hl | reflexivity]].
Defined.

Lemma loading_fold (es : list Event) (s : AppState) :
  loading (fold_left step es s) = loading s && negb (existsb isMount es).
Proof.
  revert s. induction es as [ | e es IH]; intros s; cbn.
  - now rewrite andb_true_r.
  - rewrite IH, step_loading. destruct e as [r | rv hv | | ]; cbn.
    + unfold load. cbn. now rewrite andb_false_r.
    + destruct (Modal_handleSave_cases rv hv s) as [-> | [-> | (_ & _ & ->)]];
        reflexivity.
    + reflexivity.
    + reflexivity.
Qed.

(** X20.  The wrapper shows the loading text exactly until the loading
    effect has run: no event sets the loading flag again, and before the
    effect nothing is handed to the timer. *)
Theorem loading_until_mounted (es : list Event) :
  let s := runEvents es in
  loading s = negb (existsb isMount es) /\
  (WorkTimerApp s = Memuat <-> existsb isMount es = false) /\
  (forall e : Event, loading s = false -> loading (step s e) = false).
Proof.
  intros s. subst s. unfold runEvents.
  pose proof (loading_fold es initial) as Hl. cbn [loading initial andb] in Hl.
  split; [exact Hl | ]. split.
  - unfold WorkTimerApp. rewrite Hl.
    destruct (existsb isMount es); cbn [negb].
    + split; [ | discriminate].
      destruct (parseTimeToCfg _ "Waktunya istirahat"); [ | discriminate].
      destruct (parseTimeToCfg _ "Waktunya pulang"); discriminate.
    + split; reflexivity.
  - intros e Hdone.
    pose proof (loading_fold [e] (fold_left step es initial)) as H1.
    cbn [fold_left] in H1. rewrite H1, Hdone. reflexivity.
Qed.

Lemma loading_witness :
  let es := [UbahJam; Mount NoItem] in
  loading (runEvents es) = false /\
  loading (step (runEvents es) Batal) = false /\
  WorkTimerApp (runEvents [UbahJam; Batal]) = Memuat.
Proof.
  intros es.
  destruct (loading_until_mounted es) as (Hl & _ & Hstay).
  destruct (loading_until_mounted [UbahJam; Batal]) as (_ & Hm & _).
  split; [exact Hl | ].
  split; [exact (Hstay Batal Hl) | exact (proj2 Hm eq_refl)].
Defined.

(** *** What is written to the storage *)

Lemma persisted_step (s : AppState) (e : Event) :
  persisted (step s e) = persisted s \/
  exists r h : JSValue,
    e = Simpan r h /\
    isValidTimeStr r = true /\ isValidTimeStr h = true /\
    persisted (step s e) = Some {| rest := r; home := h |} /\
    userCfg (step s e) = {| rest := r; home := h |} /\
    showModal (step s e) = false.
Proof.
  rewrite step_persisted, step_userCfg, step_showModal.
  destruct e as [r | rv hv | | ].
  - left. unfold load. destruct r as [ | | | parsed]; try reflexivity.
    destruct (validated parsed); reflexivity.
  - destruct (Modal_handleSave_cases rv hv s) as [-> | [-> | (Er & Eh & ->)]];
      [left; reflexivity | left; reflexivity | ].
    right. exists rv, hv. repeat split; try assumption; reflexivity.
  - left. reflexivity.
  - left. reflexivity.
Qed.

Lemma persisted_fold (es : list Event) (s : AppState) :
  (forall cfg, persisted s = Some cfg -> cfgValid cfg) ->
  forall cfg, persisted (fold_left step es s) = Some cfg -> cfgValid cfg.
Proof.
  revert s. induction es as [ | e es IH]; intros s Hs; cbn.
  - exact Hs.
  - apply IH. intros cfg Hcfg.
    destruct (persisted_step s e) as [Hsame | (r & h & _ & Hr & Hh & Hp & _)].
    + rewrite Hsame in Hcfg. apply Hs, Hcfg.
    + rewrite Hp in Hcfg. injection Hcfg as <-. split; assumption.
Qed.

(** X21.  The storage is written by an accepted save and by nothing else:
    an event changes what is stored only if it is a save of two fields that
    pass [isValidTimeStr], and then what is stored is the new configuration
    and the modal is closed; a save that is refused, because the first field
    fails the test or the first passes and the second fails, changes nothing
    but the error text; a save in which a test throws changes nothing at
    all.  So whatever a session has stored passes the validation. *)
Theorem storage_written_by_accepted_save_only (s : AppState) :
  reachable s ->
  (forall cfg, persisted s = Some cfg -> cfgValid cfg) /\
  (forall e : Event,
      persisted (step s e) <> persisted s ->
      exists r h : JSValue,
        e = Simpan r h /\
        isValidTimeStr r = true /\ isValidTimeStr h = true /\
        persisted (step s e) = Some (userCfg (step s e)) /\
        showModal (step s e) = false) /\
  (forall r h : JSValue,
      testThrows r = false ->
      isValidTimeStr r = false \/
      (testThrows h = false /\ isValidTimeStr h = false) ->
      step s (Simpan r h) = setErr "Format waktu harus HH:MM (24 jam)." s) /\
  (forall r h : JSValue,
      testThrows r = true \/ (isValidTimeStr r = true /\ testThrows h = true) ->
      step s (Simpan r h) = s).
Proof.
  intros [es <-]. split.
  - apply persisted_fold. discriminate.
  - split; [ | split].
    + intros e Hchange.
      destruct (persisted_step (runEvents es) e)
        as [Hsame | (r & h & He & Hr & Hh & Hp & Hu & Hm)];
        [contradiction | ].
      exists r, h. rewrite Hp, Hu. auto.
    + intros r h Hcalm Hbad. unfold step, Modal_effect.
      assert (Hsave : Modal_handleSave r h (runEvents es) =
                      setErr "Format waktu harus HH:MM (24 jam)."
                        (runEvents es)).
      { unfold Modal_handleSave. rewrite Hcalm.
        destruct Hbad as [-> | [-> ->]]; [reflexivity | ].
        destruct (isValidTimeStr r); reflexivity. }
      assert (Hnot : setsUserCfg (Simpan r h) = false).
      { cbn [setsUserCfg]. destruct Hbad as [-> | [_ ->]];
          [reflexivity | apply andb_false_r]. }
      rewrite Hsave, Hnot. cbn [setErr showModal loading orb].
      rewrite Bool.eqb_reflx, andb_negb_r. reflexivity.
    + intros r h Hthrows. unfold step, Modal_effect.
      assert (Hsave : Modal_handleSave r h (runEvents es) = runEvents es).
      { unfold Modal_handleSave.
        destruct Hthrows as [-> | [Hr ->]]; [reflexivity | ].
        rewrite (isValidTimeStr_calm r Hr), Hr. reflexivity. }
      assert (Hnot : setsUserCfg (Simpan r h) = false).
      { cbn [setsUserCfg]. destruct Hthrows as [Hr | [_ Hh]].
        - rewrite (isValidTimeStr_throws r Hr). reflexivity.
        - rewrite (isValidTimeStr_throws h Hh). apply andb_false_r. }
      rewrite Hsave, Hnot. cbn [orb].
      rewrite Bool.eqb_reflx, andb_negb_r. reflexivity.
Qed.

Lemma storage_witness :
  let s := runEvents [Mount NoItem] in
  let s1 := step s (Simpan (JStr "12:00") (JStr "17:15")) in
  let s2 := step s1 (Simpan (JStr "12:00") (JStr "5pm")) in
  let odd := JObj [("toString", JNum 0)] in
  reachable s1 /\
  persisted s1 = Some {| rest := JStr "12:00"; home := JStr "17:15" |} /\
  cfgValid {| rest := JStr "12:00"; home := JStr "17:15" |} /\
  testThrows (JStr "12:00") = false /\
  testThrows (JStr "5pm") = false /\
  isValidTimeStr (JStr "5pm") = false /\
  persisted s2 = persisted s1 /\ userCfg s2 = userCfg s1 /\
  modalErr s2 = "Format waktu harus HH:MM (24 jam)." /\
  testThrows odd = true /\
  step s1 (Simpan odd (JStr "17:00")) = s1.
Proof.
  intros s s1 s2 odd.
  assert (Hr : reachable s1).
  { exists [Mount NoItem; Simpan (JStr "12:00") (JStr "17:15")].
    reflexivity. }
  destruct (storage_written_by_accepted_save_only s1 Hr)
    as (Hvalid & _ & Hrefused & Hthrown).
  assert (Hp : persisted s1 =
               Some {| rest := JStr "12:00"; home := JStr "17:15" |})
    by reflexivity.
  assert (Hc1 : testThrows (JStr "12:00") = false) by reflexivity.
  assert (Hc2 : testThrows (JStr "5pm") = false) by reflexivity.
  assert (Hbad : isValidTimeStr (JStr "5pm") = false) by reflexivity.
  assert (Hodd : testThrows odd = true) by reflexivity.
  pose proof (Hrefused (JStr "12:00") (JStr "5pm") Hc1
                (or_intror (conj Hc2 Hbad))) as Hs2.
  split; [exact Hr | split; [exact Hp | split; [exact (Hvalid _ Hp) | ]]].
  split; [exact Hc1 | split; [exact Hc2 | split; [exact Hbad | ]]].
  change (step s1 (Simpan (JStr "12:00") (JStr "5pm"))) with s2 in Hs2.
  rewrite Hs2.
  split; [reflexivity | split; [reflexivity | split; [reflexivity | ]]].
  split; [exact Hodd | ].
  exact (Hthrown odd (JStr "17:00") (or_introl Hodd)).
Defined.

Lemma getProp_stored_of (cfg : UserCfg) :
  getProp (stored_of cfg) "rest" = Some (rest cfg) /\
  getProp (stored_of cfg) "home" = Some (home cfg).
Proof. split; reflexivity. Qed.



(** ** The interval of the hook *)

Lemma sameDeps_eq (a b : TimeCfg) : sameDeps a b = true -> a = b.
Proof.
  unfold sameDeps. intros H.
  apply andb_true_iff in H as [H Hl]. apply andb_true_iff in H as [Hh Hm].
  apply Z.eqb_eq in Hh, Hm. apply String.eqb_eq in Hl.
  destruct a, b. cbn in *. subst. reflexivity.
Qed.

Lemma filter_fresh (id : nat) (l : list (nat * TimeCfg)) :
  (forall e, In e l -> (fst e < id)%nat) ->
  filter (fun e => negb (fst e =? id)%nat) l = l.
Proof.
  induction l as [ | x l IH]; intros Hl; cbn; [reflexivity | ].
  assert (Hx : (fst x =? id)%nat = false).
  { apply Nat.eqb_neq. specialize (Hl x (or_introl eq_refl)). lia. }
  rewrite Hx. cbn [negb]. f_equal. apply IH.
  intros e He. apply Hl. right. exact He.
Qed.

Section HookLifecycle.

Variable fmt : Z -> string.

Lemma effect_run (cfg : TimeCfg) (h : HookInstance) (w : Window)
  (c : Clock) (k : nat) :
  fst (effect fmt cfg h w c k) =
  ({| state := fst (tick fmt cfg (state h) c k);
      timerRef := Some (nextHandle w);
      liveDeps := Some cfg |},
   {| nextHandle := S (nextHandle w);
      intervals := (nextHandle w, cfg) :: intervals w |}).
Proof.
  unfold effect, bind, setInterval.
  destruct (tick fmt cfg (state h) c k). reflexivity.
Qed.

Lemma cleanup_live (w0 : Window) (h : HookInstance) (w : Window)
  (cfg : TimeCfg) :
  freshHandles w0 -> hookInv w0 h w -> liveDeps h = Some cfg ->
  intervals (cleanup h w) = intervals w0 /\
  nextHandle (cleanup h w) = nextHandle w.
Proof.
  intros Hfresh [Hnext Hinv] Hlive. rewrite Hlive in Hinv.
  destruct Hinv as (id & Href & Hid & Hint).
  unfold cleanup. rewrite Href. unfold clearInterval. cbn [intervals nextHandle].
  split; [ | reflexivity].
  rewrite Hint. cbn [filter fst]. rewrite Nat.eqb_refl. cbn [negb].
  apply filter_fresh. intros e He. specialize (Hfresh e He). lia.
Qed.

Lemma hookStep_inv (w0 : Window) (e : HookEvent) (h : HookInstance)
  (w : Window) (c : Clock) (k : nat) :
  freshHandles w0 -> hookInv w0 h w ->
  hookInv w0 (fst (fst (hookStep fmt e h w c k)))
             (snd (fst (hookStep fmt e h w c k))).
Proof.
  intros Hfresh Hinv. destruct e as [cfg | id | ]; cbn [hookStep].
  - destruct (liveDeps h) as [d | ] eqn:Hlive.
    + destruct (sameDeps d cfg); [exact Hinv | ].
      destruct (cleanup_live w0 h w d Hfresh Hinv Hlive) as [Hint Hnext].
      rewrite effect_run. cbn [fst snd]. destruct Hinv as [Hle _].
      split; cbn [nextHandle liveDeps]; [lia | ].
      exists (nextHandle (cleanup h w)).
      cbn [timerRef intervals]. rewrite Hint, Hnext.
      repeat split; lia.
    + rewrite effect_run. cbn [fst snd]. destruct Hinv as [Hle Hint].
      rewrite Hlive in Hint.
      split; cbn [nextHandle liveDeps]; [lia | ].
      exists (nextHandle w). cbn [timerRef intervals]. rewrite Hint.
      repeat split; lia.
  - destruct (find _ (intervals w)) as [[i cfg] | ]; [ | exact Hinv].
    unfold bind. destruct (tick fmt cfg (state h) c k). exact Hinv.
  - destruct (liveDeps h) as [d | ] eqn:Hlive; [ | exact Hinv].
    destruct (cleanup_live w0 h w d Hfresh Hinv Hlive) as [Hint Hnext].
    cbn [ret fst snd]. destruct Hinv as [Hle _].
    split; cbn [liveDeps]; [lia | exact Hint].
Qed.

Lemma hookRun_inv (w0 : Window) (es : list HookEvent) (h : HookInstance)
  (w : Window) (c : Clock) (k : nat) :
  freshHandles w0 -> hookInv w0 h w ->
  hookInv w0 (fst (fst (hookRun fmt es h w c k)))
             (snd (fst (hookRun fmt es h w c k))).
Proof.
  intros Hfresh. revert h w k.
  induction es as [ | e es IH]; intros h w k Hinv; cbn [hookRun].
  - exact Hinv.
  - unfold bind. pose proof (hookStep_inv w0 e h w c k Hfresh Hinv) as Hstep.
    destruct (hookStep fmt e h w c k) as [[h1 w1] k1]. cbn [fst snd] in *.
    apply IH, Hstep.
Qed.

Lemma hookRun_app (es : list HookEvent) (e : HookEvent) (h : HookInstance)
  (w : Window) (c : Clock) (k : nat) :
  fst (hookRun fmt (es ++ [e]) h w c k) =
  fst (hookStep fmt e (fst (fst (hookRun fmt es h w c k)))
         (snd (fst (hookRun fmt es h w c k)))
         c (snd (hookRun fmt es h w c k))).
Proof.
  revert h w k. induction es as [ | x es IH]; intros h w k; cbn [app hookRun].
  - unfold bind, ret. cbn [fst snd].
    destruct (hookStep fmt e h w c k) as [[h1 w1] k1]. reflexivity.
  - unfold bind at 1 2 3 4.
    destruct (hookStep fmt x h w c k) as [[h1 w1] k1]. cbn [fst snd].
    apply IH.
Qed.

(** X23.  The hook never leaks an interval.  For an instance created in
    a window with the intervals of [w0], after any sequence of renders,
    firings and unmounts: while an effect is live the window holds exactly
    one interval more than [w0], under the handle in [timerRef] and over the
    dependencies of the live effect; a render makes that the interval of
    the rendered configuration; and an unmount leaves the intervals of
    [w0]. *)
Theorem hook_keeps_one_interval (w0 : Window) (h0 : HookInstance)
  (es : list HookEvent) (c : Clock) (k : nat) :
  freshHandles w0 ->
  liveDeps h0 = None ->
  hookInv w0 (fst (fst (hookRun fmt es h0 w0 c k)))
             (snd (fst (hookRun fmt es h0 w0 c k))) /\
  (forall cfg : TimeCfg,
      let hw := fst (hookRun fmt (es ++ [Render cfg]) h0 w0 c k) in
      exists id : nat,
        timerRef (fst hw) = Some id /\
        liveDeps (fst hw) = Some cfg /\
        intervals (snd hw) = (id, cfg) :: intervals w0) /\
  (let hw := fst (hookRun fmt (es ++ [Unmount]) h0 w0 c k) in
   liveDeps (fst hw) = None /\ intervals (snd hw) = intervals w0).
Proof.
  intros Hfresh Hnone.
  assert (Hstart : hookInv w0 h0 w0).
  { split; [lia | ]. rewrite Hnone. reflexivity. }
  pose proof (hookRun_inv w0 es h0 w0 c k Hfresh Hstart) as Hinv.
  split; [exact Hinv | ]. split.
  - intros cfg hw. subst hw. rewrite hookRun_app.
    set (h := fst (fst (hookRun fmt es h0 w0 c k))) in *.
    set (w := snd (fst (hookRun fmt es h0 w0 c k))) in *.
    set (k1 := snd (hookRun fmt es h0 w0 c k)).
    pose proof (hookStep_inv w0 (Render cfg) h w c k1 Hfresh Hinv) as Hstep.
    cbn [hookStep] in *.
    destruct (liveDeps h) as [d | ] eqn:Hlive.
    + destruct (sameDeps d cfg) eqn:Hsame.
      * apply sameDeps_eq in Hsame. subst d. cbn [ret fst snd] in *.
        destruct Hinv as [_ Hinv]. rewrite Hlive in Hinv.
        destruct Hinv as (id & Href & _ & Hint).
        exists id. auto.
      * rewrite effect_run in *. cbn [fst snd] in *.
        destruct Hstep as [_ (id & Href & _ & Hint)].
        exists id. auto.
    + rewrite effect_run in *. cbn [fst snd] in *.
      destruct Hstep as [_ (id & Href & _ & Hint)].
      exists id. auto.
  - intros hw. subst hw. rewrite hookRun_app.
    set (h := fst (fst (hookRun fmt es h0 w0 c k))) in *.
    set (w := snd (fst (hookRun fmt es h0 w0 c k))) in *.
    set (k1 := snd (hookRun fmt es h0 w0 c k)).
    pose proof (hookStep_inv w0 Unmount h w c k1 Hfresh Hinv) as Hstep.
    cbn [hookStep] in *.
    destruct (liveDeps h) as [d | ] eqn:Hlive.
    + cbn [ret fst snd] in *. destruct Hstep as [_ Hint].
      cbn [liveDeps] in Hint. split; [reflexivity | exact Hint].
    + cbn [ret fst snd] in *. destruct Hinv as [_ Hint].
      rewrite Hlive in Hint. split; [exact Hlive | exact Hint].
Qed.

End HookLifecycle.

Lemma hook_interval_witness :
  let w0 := {| nextHandle := 3; intervals := [(2%nat, DEFAULT_REST)] |} in
  let h0 := run (hookMount noText DEFAULT_HOME) (frozen 36000000) in
  let saturday := mkTimeCfg 14 0 "Waktunya pulang (Sabtu)" in
  let es := [Render DEFAULT_HOME; Fire 3%nat; Render saturday] in
  freshHandles w0 /\ liveDeps h0 = None /\
  intervals (snd (fst (hookRun noText es h0 w0 (frozen 36000000) O))) =
    [(4%nat, saturday); (2%nat, DEFAULT_REST)] /\
  intervals (snd (fst (hookRun noText (es ++ [Unmount]) h0 w0
                         (frozen 36000000) O))) =
    [(2%nat, DEFAULT_REST)].
Proof.
  intros w0 h0 saturday es.
  assert (Hf : freshHandles w0).
  { intros e [<- | []]. cbn. lia. }
  assert (Hn : liveDeps h0 = None) by reflexivity.
  destruct (hook_keeps_one_interval noText w0 h0 es (frozen 36000000) O
              Hf Hn) as (_ & _ & Hun).
  split; [exact Hf | split; [exact Hn | split; [reflexivity | ]]].
  exact (proj2 Hun).
Defined.
